(** * Stock management endpoints: a shallow embedding of
      [src/backend/routers/stock.py] and the properties of its handlers.

    The handlers are thin request/response functions over two document
    collections ([stock_collection] and [teachers_collection]).  Documents
    are Python dicts, modelled as [gmap string value]; a collection is the
    list of its documents in natural (insertion) order.  Handlers run in a
    small state-and-exception monad over the pair of collections. *)

From Stdlib Require Import ZArith String Ascii List Sorted OrderedTypeEx.
From stdpp Require Import gmap strings list fin_maps pretty.

Local Open Scope Z_scope.
Local Open Scope string_scope.

(** ** Values and documents *)

(** The field values that occur in the documents handled here: Python
    [str] (as its UTF-8 bytes), Python [int], and the [ObjectId] the driver
    generates for [_id]. *)
Inductive value : Type :=
  | VStr (s : string)
  | VInt (z : Z)
  | VOid (n : N).

#[global] Instance value_eq_dec : EqDecision value.
Proof. solve_decision. Defined.

Abbreviation document := (gmap string value).
Abbreviation collection := (list (gmap string value)).

(** ** Exceptions and outcomes *)

Inductive exn : Type :=
  | HTTPException (status_code : Z) (detail : string)
  | KeyError (key : string)
  | TypeError.

Inductive outcome (A : Type) : Type :=
  | Ok (a : A)
  | Raise (e : exn).
Arguments Ok {A} a.
Arguments Raise {A} e.

Definition obind {A B} (o : outcome A) (k : A -> outcome B) : outcome B :=
  match o with
  | Ok a => k a
  | Raise e => Raise e
  end.

(** ** The request models *)

Module StockItem.
Record t : Type := Build {
  item_id : string;
  name : string;
  category : string;
  quantity : Z;
  unit : string;
  location : string;
  min_quantity : Z
}.
End StockItem.

Module StockUpdate.
Record t : Type := Build { quantity : Z }.
End StockUpdate.

(** [item.model_dump()]: the dict of the seven declared fields. *)
Definition model_dump (item : StockItem.t) : document :=
  <["item_id" := VStr (StockItem.item_id item)]>
  (<["name" := VStr (StockItem.name item)]>
  (<["category" := VStr (StockItem.category item)]>
  (<["quantity" := VInt (StockItem.quantity item)]>
  (<["unit" := VStr (StockItem.unit item)]>
  (<["location" := VStr (StockItem.location item)]>
  (<["min_quantity" := VInt (StockItem.min_quantity item)]> ∅)))))).

(** ** Python primitives used by the handlers *)

(** Truthiness of an [Optional[str]]: [None] and the empty string are
    falsy. *)
Definition truthy_str (s : option string) : bool :=
  match s with
  | Some EmptyString => false
  | Some _ => true
  | None => false
  end.

(** Truthiness of an [Optional[bool]]. *)
Definition truthy_bool (b : option bool) : bool :=
  match b with
  | Some true => true
  | _ => false
  end.

(** Truthiness of the result of [find_one]: [None] and the empty dict are
    falsy. *)
Definition truthy_doc (d : option document) : bool :=
  match d with
  | Some m => bool_decide (m ≠ ∅)
  | None => false
  end.

(** [d[k]]: raises [KeyError] when the key is absent. *)
Definition getitem (d : document) (k : string) : outcome value :=
  match d !! k with
  | Some v => Ok v
  | None => Raise (KeyError k)
  end.

(** [a < b] on values: integers by value, strings by code point (which is
    the byte order of their UTF-8 encodings), ObjectIds by their bytes;
    operands of different types raise [TypeError]. *)
Definition py_lt (a b : value) : outcome bool :=
  match a, b with
  | VInt x, VInt y => Ok (x <? y)%Z
  | VStr x, VStr y => Ok (String.ltb x y)
  | VOid x, VOid y => Ok (x <? y)%N
  | _, _ => Raise TypeError
  end.

(** A list comprehension [[x for x in l if p(x)]] whose condition may
    raise: elements are tested in order and the first exception escapes. *)
Fixpoint comprehension {A} (p : A -> outcome bool) (l : list A)
  : outcome (list A) :=
  match l with
  | [] => Ok []
  | x :: l' =>
      obind (p x) (fun keep =>
      obind (comprehension p l') (fun rest =>
      Ok (if keep then x :: rest else rest)))
  end.

(** [sorted(l)]: a stable sort that only uses [<]; an exception raised by
    a comparison escapes. *)
Fixpoint sorted_insert (x : value) (l : list value) : outcome (list value) :=
  match l with
  | [] => Ok [x]
  | y :: l' =>
      obind (py_lt y x) (fun before =>
      if before then obind (sorted_insert x l') (fun r => Ok (y :: r))
      else Ok (x :: y :: l'))
  end.

Fixpoint sorted (l : list value) : outcome (list value) :=
  match l with
  | [] => Ok []
  | x :: l' => obind (sorted l') (sorted_insert x)
  end.

(** The validation of a returned list against [response_model=List[str]]:
    every element has to be a string.  The framework answers a failed
    response validation with status 500. *)
Fixpoint validate_str_list (l : list value) : outcome (list string) :=
  match l with
  | [] => Ok []
  | VStr s :: l' => obind (validate_str_list l') (fun r => Ok (s :: r))
  | _ :: _ => Raise TypeError
  end.

(** ** The document collections *)

(** Modelled from the spec: the collection objects come from
    [..database], which is not among the sources; the operations below
    follow the record store of the specification (a document store keyed
    by item identifier, queried by exact field match, reporting the number
    of rows a write modified or deleted). *)

(** A query document matches a stored document when every field of the
    query is present in the document with the same value. *)
Definition matches (query d : document) : bool := bool_decide (query ⊆ d).

Definition find (query : document) (c : collection) : collection :=
  filter (fun d => matches query d) c.

Definition find_one (query : document) (c : collection) : option document :=
  head (find query c).

(** The largest ObjectId in use, to generate one that is not. *)
Definition max_oid (c : collection) : N :=
  foldr (fun d acc =>
           match d !! "_id" with
           | Some (VOid n) => N.max n acc
           | _ => acc
           end) 0%N c.

(** [insert_one]: a document without [_id] gets an ObjectId that is not in
    use (which one is immaterial to the handlers, that drop [_id] from all
    they return); the document goes to the end of the collection.  The
    handlers only insert dumps of [StockItem], which carry no [_id]. *)
Definition insert_one (d : document) (c : collection) : collection :=
  match d !! "_id" with
  | Some _ => c ++ [d]
  | None => c ++ [<["_id" := VOid (N.succ (max_oid c))]> d]
  end.

Record UpdateResult : Type := {
  matched_count : Z;
  modified_count : Z
}.

Record DeleteResult : Type := { deleted_count : Z }.

(** [update_one query {"$set": fields}]: the first matching document gets
    the fields; a document that already has these values is matched but
    not modified. *)
Fixpoint update_one (query fields : document) (c : collection)
  : UpdateResult * collection :=
  match c with
  | [] => ({| matched_count := 0; modified_count := 0 |}, [])
  | d :: c' =>
      if matches query d then
        let d' := fields ∪ d in
        ({| matched_count := 1;
            modified_count := if bool_decide (d' = d) then 0 else 1 |},
         d' :: c')
      else
        let '(r, c'') := update_one query fields c' in (r, d :: c'')
  end.

(** [delete_one query]: removes the first matching document. *)
Fixpoint delete_one (query : document) (c : collection)
  : DeleteResult * collection :=
  match c with
  | [] => ({| deleted_count := 0 |}, [])
  | d :: c' =>
      if matches query d then ({| deleted_count := 1 |}, c')
      else let '(r, c'') := delete_one query c' in (r, d :: c'')
  end.

(** [distinct key]: the values of the field over the collection, each
    once. *)
Definition distinct (key : string) (c : collection) : list value :=
  remove_dups (omap (fun d : document => d !! key) c).

(** ** The database and the handler monad *)

Record db : Type := Db {
  stock_collection : collection;
  teachers_collection : collection
}.

Definition M (A : Type) : Type := db -> outcome A * db.

Definition ret {A} (a : A) : M A := fun s => (Ok a, s).
Definition raise {A} (e : exn) : M A := fun s => (Raise e, s).
Definition bind {A B} (k : A -> M B) (m : M A) : M B :=
  fun s => match m s with
           | (Ok a, s') => k a s'
           | (Raise e, s') => (Raise e, s')
           end.
Definition lift {A} (o : outcome A) : M A := fun s => (o, s).

#[global] Instance M_ret : MRet M := @ret.
#[global] Instance M_bind : MBind M := @bind.

Definition stock_find (q : document) : M collection :=
  fun s => (Ok (find q (stock_collection s)), s).
Definition stock_find_one (q : document) : M (option document) :=
  fun s => (Ok (find_one q (stock_collection s)), s).
Definition stock_distinct (key : string) : M (list value) :=
  fun s => (Ok (distinct key (stock_collection s)), s).
Definition teachers_find_one (q : document) : M (option document) :=
  fun s => (Ok (find_one q (teachers_collection s)), s).
Definition stock_insert_one (d : document) : M ()%type :=
  fun s => (Ok tt, Db (insert_one d (stock_collection s)) (teachers_collection s)).
Definition stock_update_one (q fields : document) : M UpdateResult :=
  fun s => let '(r, c) := update_one q fields (stock_collection s) in
           (Ok r, Db c (teachers_collection s)).
Definition stock_delete_one (q : document) : M DeleteResult :=
  fun s => let '(r, c) := delete_one q (stock_collection s) in
           (Ok r, Db c (teachers_collection s)).

(** ** The handlers *)

(** The query of [get_stock_items]: empty, with the category added when
    the argument is truthy. *)
Definition category_query (category : option string) : document :=
  match category with
  | Some c => if truthy_str category then <["category" := VStr c]> ∅ else ∅
  | None => ∅
  end.

(** The condition of the low-stock comprehension:
    [item["quantity"] < item["min_quantity"]]. *)
Definition below_minimum (item : document) : outcome bool :=
  obind (getitem item "quantity") (fun q =>
  obind (getitem item "min_quantity") (fun m => py_lt q m)).

(** [GET /stock] *)
Definition get_stock_items (category : option string) (low_stock : option bool)
  : M (list document) :=
  let query := category_query category in
  items ← stock_find query;
  let items := (fun item : document => delete "_id" item) <$> items in
  if truthy_bool low_stock then lift (comprehension below_minimum items)
  else ret items.

(** [GET /stock/categories] *)
Definition get_categories : M (list string) :=
  categories ← stock_distinct "category";
  r ← lift (sorted categories);
  lift (validate_str_list r).

(** [GET /stock/{item_id}] *)
Definition get_stock_item (item_id : string) : M document :=
  item ← stock_find_one {["item_id" := VStr item_id]};
  match item with
  | Some d =>
      if negb (truthy_doc item)
      then raise (HTTPException 404 "Stock item not found")
      else ret (delete "_id" d)
  | None => raise (HTTPException 404 "Stock item not found")
  end.

(** The teacher check: the lines every mutating handler opens with
    ([if not teacher_username: raise 401], then the lookup of the teacher
    by [_id] and [if not teacher: raise 401]). *)
Definition check_teacher (teacher_username : option string) : M ()%type :=
  match teacher_username with
  | Some u =>
      if negb (truthy_str teacher_username)
      then raise (HTTPException 401 "Authentication required for this action")
      else
        teacher ← teachers_find_one {["_id" := VStr u]};
        if negb (truthy_doc teacher)
        then raise (HTTPException 401 "Invalid teacher credentials")
        else ret tt
  | None => raise (HTTPException 401 "Authentication required for this action")
  end.

(** [POST /stock] *)
Definition create_stock_item (item : StockItem.t)
    (teacher_username : option string) : M document :=
  check_teacher teacher_username;;
  existing_item ← stock_find_one {["item_id" := VStr (StockItem.item_id item)]};
  if truthy_doc existing_item
  then raise (HTTPException 400 "Item ID already exists")
  else
    let item_dict := model_dump item in
    stock_insert_one item_dict;;
    ret {["message" := VStr ("Stock item " ++ StockItem.item_id item
                              ++ " created successfully")]}.

(** [PUT /stock/{item_id}] *)
Definition update_stock_quantity (item_id : string) (update : StockUpdate.t)
    (teacher_username : option string) : M document :=
  check_teacher teacher_username;;
  item ← stock_find_one {["item_id" := VStr item_id]};
  if negb (truthy_doc item)
  then raise (HTTPException 404 "Stock item not found")
  else
    result ← stock_update_one {["item_id" := VStr item_id]}
               {["quantity" := VInt (StockUpdate.quantity update)]};
    if (modified_count result =? 0)%Z
    then raise (HTTPException 500 "Failed to update stock item")
    else ret {["message" := VStr ("Stock item " ++ item_id
                                  ++ " quantity updated to "
                                  ++ pretty (StockUpdate.quantity update))]}.

(** [DELETE /stock/{item_id}] *)
Definition delete_stock_item (item_id : string)
    (teacher_username : option string) : M document :=
  check_teacher teacher_username;;
  item ← stock_find_one {["item_id" := VStr item_id]};
  if negb (truthy_doc item)
  then raise (HTTPException 404 "Stock item not found")
  else
    result ← stock_delete_one {["item_id" := VStr item_id]};
    if (deleted_count result =? 0)%Z
    then raise (HTTPException 500 "Failed to delete stock item")
    else ret {["message" := VStr ("Stock item " ++ item_id
                                  ++ " deleted successfully")]}.

(** ** The vocabulary of the specification *)

(** The error taxonomy of the specification and the status code each
    failure is surfaced with. *)
Inductive failure : Type := Unauthorized | Conflict | NotFound | InternalError.

Definition status_of (f : failure) : Z :=
  match f with
  | Unauthorized => 401
  | Conflict => 400
  | NotFound => 404
  | InternalError => 500
  end.

Definition fails_with {A} (o : outcome A) (f : failure) : Prop :=
  exists detail, o = Raise (HTTPException (status_of f) detail).

Definition succeeds {A} (o : outcome A) : Prop := exists a, o = Ok a.

(** The identifier [u] exists in the credential store. *)
Definition has_teacher (u : string) (teachers : collection) : Prop :=
  exists d, d ∈ teachers /\ d !! "_id" = Some (VStr u).

(** A valid credential: an identifier was supplied, it is not blank, and
    it exists in the credential store. *)
Definition valid_credential (cred : option string) (teachers : collection)
  : Prop :=
  exists u, cred = Some u /\ u <> "" /\ has_teacher u teachers.

(** A credential that is missing (absent or blank) or that does not exist
    in the credential store. *)
Definition rejected_credential (cred : option string) (teachers : collection)
  : Prop :=
  cred = None \/ cred = Some "" \/
  (exists u, cred = Some u /\ ~ has_teacher u teachers).

(** The identifier [id] is the [item_id] of a stored item. *)
Definition has_item (id : string) (stock : collection) : Prop :=
  exists d, d ∈ stock /\ d !! "item_id" = Some (VStr id).

(** A stored item: the seven declared fields with values of the declared
    types, plus the store's [_id]. *)
Definition stored_item (d : document) : Prop :=
  exists (oid : value) (item : StockItem.t), d = <["_id" := oid]> (model_dump item).

(** The data-model invariant: item identifiers are unique. *)
Definition unique_ids (stock : collection) : Prop :=
  NoDup (omap (fun d : document => d !! "item_id") stock).

Definition wf_stock (stock : collection) : Prop :=
  Forall stored_item stock /\ unique_ids stock.

(** The fields declared by [StockItem]. *)
Definition declared_fields : gset string :=
  {[ "item_id"; "name"; "category"; "quantity"; "unit"; "location";
     "min_quantity" ]}.

(** The quantity and the threshold of an item are integers. *)
Definition int_levels (d : document) : Prop :=
  exists q m, d !! "quantity" = Some (VInt q)
              /\ d !! "min_quantity" = Some (VInt m).

(** Low stock: the quantity is strictly less than the minimum. *)
Definition is_low_stock (item : document) : Prop :=
  match item !! "quantity", item !! "min_quantity" with
  | Some (VInt q), Some (VInt m) => q < m
  | _, _ => False
  end.

#[global] Instance is_low_stock_dec item : Decision (is_low_stock item).
Proof.
  unfold is_low_stock.
  destruct (item !! "quantity") as [[]|], (item !! "min_quantity") as [[]|];
    apply _.
Defined.

(** The category of an item, when it has one, is a string. *)
Definition str_category (d : document) : Prop :=
  forall v, d !! "category" = Some v -> exists s, v = VStr s.

(** The order [sorted] puts strings in: [a] is not after [b]. *)
Definition str_le (a b : string) : Prop := String.ltb b a = false.
Definition str_lt (a b : string) : Prop := String.ltb a b = true.

(** ** A running example

    The two items of the specification's example, a third item whose
    quantity equals its threshold, and one teacher. *)

Definition art_brushes : StockItem.t :=
  StockItem.Build "A1" "Brushes" "Art Supplies" 2 "box" "Room 12" 5.
Definition footballs : StockItem.t :=
  StockItem.Build "A2" "Footballs" "Sports Equipment" 10 "piece" "Gym" 3.
Definition canvases : StockItem.t :=
  StockItem.Build "A3" "Canvases" "Art Supplies" 4 "piece" "Room 12" 4.
Definition whistles : StockItem.t :=
  StockItem.Build "A4" "Whistles" "Sports Equipment" 1 "piece" "Gym" 6.

Definition example_stock : collection :=
  [ <["_id" := VOid 1]> (model_dump art_brushes);
    <["_id" := VOid 2]> (model_dump footballs);
    <["_id" := VOid 3]> (model_dump canvases) ].

Definition example_teachers : collection :=
  [ <["_id" := VStr "mrodriguez"]>
      (<["display_name" := VStr "Ms. Rodriguez"]>
      (<["role" := VStr "teacher"]> ∅)) ].

Definition example_db : db := Db example_stock example_teachers.

(** Unfolding of the handler monad in proofs. *)
Ltac unfold_monad :=
  unfold mbind, M_bind, bind, mret, M_ret, ret, raise, lift,
    stock_find, stock_find_one, stock_distinct, teachers_find_one,
    stock_insert_one, stock_update_one, stock_delete_one in *.

(** ** The mutating routes as requests

    The three routes of the router that write to the stock collection
    ([POST /stock], [PUT /stock/{item_id}], [DELETE /stock/{item_id}]),
    with the arguments their handlers take, and a server that answers a
    sequence of such requests one after the other. *)

Inductive request : Type :=
  | PostStock (item : StockItem.t) (teacher_username : option string)
  | PutStock (item_id : string) (update : StockUpdate.t)
      (teacher_username : option string)
  | DeleteStock (item_id : string) (teacher_username : option string).

Definition route (r : request) : M document :=
  match r with
  | PostStock item teacher_username =>
      create_stock_item item teacher_username
  | PutStock item_id update teacher_username =>
      update_stock_quantity item_id update teacher_username
  | DeleteStock item_id teacher_username =>
      delete_stock_item item_id teacher_username
  end.

Fixpoint serve (rs : list request) (st : db) : db :=
  match rs with
  | [] => st
  | r :: rs' => serve rs' (snd (route r st))
  end.

(** The documents a category argument selects: all of them when the
    argument is absent or empty, and those whose category is the argument
    otherwise. *)
Definition in_category (category : option string) (d : document) : Prop :=
  match category with
  | Some s => if decide (s = "") then True else d !! "category" = Some (VStr s)
  | None => True
  end.

#[global] Instance in_category_dec category d : Decision (in_category category d).
Proof.
  unfold in_category. destruct category as [s|]; [|apply _].
  destruct (decide (s = "")); apply _.
Defined.

(** ** Facts about queries and collections *)

Section Collections.
Implicit Types (q d : document) (c : collection) (k : string) (v : value).

Lemma matches_singleton k v d :
  matches {[k := v]} d <-> d !! k = Some v.
Proof.
  unfold matches. rewrite bool_decide_spec.
  apply map_singleton_subseteq_l.
Qed.

Lemma matches_empty d : matches ∅ d = true.
Proof.
  unfold matches. apply bool_decide_eq_true, map_empty_subseteq.
Qed.

Lemma find_one_cons q d c :
  find_one q (d :: c) = if matches q d then Some d else find_one q c.
Proof.
  unfold find_one, find. rewrite filter_cons.
  by destruct (matches q d).
Qed.

Lemma find_one_Some q c d :
  find_one q c = Some d -> d ∈ c /\ matches q d.
Proof.
  induction c as [|d' c IH]; [discriminate|].
  rewrite find_one_cons. destruct (matches q d') eqn:E.
  - intros [= <-]. split; [left | by rewrite E].
  - intros H. destruct (IH H). split; [by right | done].
Qed.

Lemma find_one_None q c :
  find_one q c = None <-> forall d, d ∈ c -> ~ matches q d.
Proof.
  induction c as [|d' c IH].
  - split; [|done]. intros _ d Hd. inversion Hd.
  - rewrite find_one_cons. destruct (matches q d') eqn:E.
    + split; [discriminate|]. intros H. exfalso.
      apply (H d'); [left | by rewrite E].
    + rewrite IH. split.
      * intros H d Hd. apply elem_of_cons in Hd as [-> | Hd]; [|by apply H].
        rewrite E. intros [].
      * intros H d Hd. apply H. by right.
Qed.

Lemma find_one_is_Some q c d :
  d ∈ c -> matches q d -> is_Some (find_one q c).
Proof.
  intros Hd Hm. destruct (find_one q c) eqn:E; [eauto|].
  rewrite find_one_None in E. destruct (E d Hd Hm).
Qed.

Lemma find_one_app_r q c d :
  (forall d', d' ∈ c -> ~ matches q d') -> matches q d ->
  find_one q (c ++ [d]) = Some d.
Proof.
  intros Hc Hd. induction c as [|d' c IH]; simpl.
  - rewrite find_one_cons. destruct (matches q d); [done | by destruct Hd].
  - rewrite find_one_cons. destruct (matches q d') eqn:E.
    + exfalso. apply (Hc d'); [left | by rewrite E].
    + apply IH. intros d'' H. apply Hc. by right.
Qed.

(** A document found through a one-field query is never the empty dict,
    so the handlers' truth test on it tells found from not found. *)
Lemma truthy_find_one k v c :
  truthy_doc (find_one {[k := v]} c) <->
  exists d, d ∈ c /\ d !! k = Some v.
Proof.
  split.
  - destruct (find_one _ c) as [d|] eqn:E; [|done].
    intros _. apply find_one_Some in E as [? ?%matches_singleton]. eauto.
  - intros (d & Hd & Hk). apply matches_singleton in Hk.
    destruct (find_one_is_Some _ _ _ Hd Hk) as [d' E]. rewrite E. simpl.
    apply find_one_Some in E as [_ E%matches_singleton].
    apply bool_decide_spec. intros ->. by rewrite lookup_empty in E.
Qed.

Lemma truthy_find_one_false k v c :
  truthy_doc (find_one {[k := v]} c) = false <->
  forall d, d ∈ c -> d !! k <> Some v.
Proof.
  rewrite <- Is_true_false, truthy_find_one. split.
  - intros H d Hd Hk. apply H. eauto.
  - intros H (d & Hd & Hk). by apply (H d).
Qed.
End Collections.

(** ** The teacher check *)

Section TeacherCheck.
Implicit Types (st : db) (cred : option string).

Lemma truthy_str_Some u : truthy_str (Some u) = true <-> u <> "".
Proof. destruct u; simpl; split; congruence. Qed.

Lemma check_teacher_valid st cred :
  valid_credential cred (teachers_collection st) ->
  check_teacher cred st = (Ok tt, st).
Proof.
  intros (u & -> & Hne & d & Hd & Hid). unfold check_teacher.
  apply truthy_str_Some in Hne. rewrite Hne. simpl. unfold_monad.
  assert (Ht : truthy_doc
                 (find_one {["_id" := VStr u]} (teachers_collection st)))
    by (apply truthy_find_one; eauto).
  apply Is_true_true in Ht. by rewrite Ht.
Qed.

Lemma check_teacher_rejected st cred :
  rejected_credential cred (teachers_collection st) ->
  exists detail, check_teacher cred st = (Raise (HTTPException 401 detail), st).
Proof.
  intros [-> | [-> | (u & -> & Hno)]]; unfold check_teacher; [by eauto..|].
  destruct (truthy_str (Some u)); [|by eauto]. cbn [negb]. unfold_monad.
  assert (Ht : truthy_doc
                 (find_one {["_id" := VStr u]} (teachers_collection st))
               = false).
  { apply truthy_find_one_false. intros d Hd Hid. apply Hno. by exists d. }
  rewrite Ht. simpl. eauto.
Qed.

(** Every credential is either valid or rejected, never both. *)
Lemma rejected_iff_not_valid cred (teachers : collection) :
  rejected_credential cred teachers <-> ~ valid_credential cred teachers.
Proof.
  split.
  - intros [-> | [-> | (u & -> & Hno)]] (u' & Hu & Hne & Ht);
      simplify_eq; tauto.
  - intros Hnv. destruct cred as [u|]; [|by left].
    destruct (decide (u = "")) as [-> | Hne]; [right; by left|].
    right; right. exists u. split; [done|]. intros Ht. apply Hnv.
    by exists u.
Qed.
End TeacherCheck.

(** ** Mutating handlers behind the teacher check *)

Section Mutations.
Implicit Types (st : db) (cred : option string) (id : string).
Implicit Types (item : StockItem.t) (upd : StockUpdate.t).

Lemma create_rejected st cred item :
  rejected_credential cred (teachers_collection st) ->
  exists detail,
    create_stock_item item cred st = (Raise (HTTPException 401 detail), st).
Proof.
  intros [detail H]%(check_teacher_rejected st).
  exists detail. unfold create_stock_item. unfold_monad. by rewrite H.
Qed.

Lemma update_rejected st cred id upd :
  rejected_credential cred (teachers_collection st) ->
  exists detail,
    update_stock_quantity id upd cred st
    = (Raise (HTTPException 401 detail), st).
Proof.
  intros [detail H]%(check_teacher_rejected st).
  exists detail. unfold update_stock_quantity. unfold_monad. by rewrite H.
Qed.

Lemma delete_rejected st cred id :
  rejected_credential cred (teachers_collection st) ->
  exists detail,
    delete_stock_item id cred st = (Raise (HTTPException 401 detail), st).
Proof.
  intros [detail H]%(check_teacher_rejected st).
  exists detail. unfold delete_stock_item. unfold_monad. by rewrite H.
Qed.

(** What each mutating handler does once the teacher check has passed. *)
Lemma create_valid st cred item :
  valid_credential cred (teachers_collection st) ->
  create_stock_item item cred st =
  if truthy_doc (find_one {["item_id" := VStr (StockItem.item_id item)]}
                   (stock_collection st))
  then (Raise (HTTPException 400 "Item ID already exists"), st)
  else (Ok {["message" := VStr ("Stock item " ++ StockItem.item_id item
                                 ++ " created successfully")]},
        Db (insert_one (model_dump item) (stock_collection st))
           (teachers_collection st)).
Proof.
  intros H%check_teacher_valid. unfold create_stock_item. unfold_monad.
  rewrite H.
  by destruct (truthy_doc (find_one _ (stock_collection st))).
Qed.

Lemma update_valid st cred id upd :
  valid_credential cred (teachers_collection st) ->
  update_stock_quantity id upd cred st =
  if truthy_doc (find_one {["item_id" := VStr id]} (stock_collection st))
  then
    let r := update_one {["item_id" := VStr id]}
               {["quantity" := VInt (StockUpdate.quantity upd)]}
               (stock_collection st) in
    (if (modified_count (fst r) =? 0)%Z
     then Raise (HTTPException 500 "Failed to update stock item")
     else Ok {["message" := VStr ("Stock item " ++ id
                                   ++ " quantity updated to "
                                   ++ pretty (StockUpdate.quantity upd))]},
     Db (snd r) (teachers_collection st))
  else (Raise (HTTPException 404 "Stock item not found"), st).
Proof.
  intros H%check_teacher_valid. unfold update_stock_quantity. unfold_monad.
  rewrite H.
  destruct (truthy_doc (find_one _ (stock_collection st))); [|done].
  cbn [negb]. destruct (update_one _ _ _) as [r c]. cbn [fst snd].
  by destruct (modified_count r =? 0)%Z.
Qed.

Lemma delete_valid st cred id :
  valid_credential cred (teachers_collection st) ->
  delete_stock_item id cred st =
  if truthy_doc (find_one {["item_id" := VStr id]} (stock_collection st))
  then
    let r := delete_one {["item_id" := VStr id]} (stock_collection st) in
    (if (deleted_count (fst r) =? 0)%Z
     then Raise (HTTPException 500 "Failed to delete stock item")
     else Ok {["message" := VStr ("Stock item " ++ id
                                   ++ " deleted successfully")]},
     Db (snd r) (teachers_collection st))
  else (Raise (HTTPException 404 "Stock item not found"), st).
Proof.
  intros H%check_teacher_valid. unfold delete_stock_item. unfold_monad.
  rewrite H.
  destruct (truthy_doc (find_one _ (stock_collection st))); [|done].
  cbn [negb]. destruct (delete_one _ _) as [r c]. cbn [fst snd].
  by destruct (deleted_count r =? 0)%Z.
Qed.
End Mutations.

(** ** Writes to a collection *)

Section Writes.
Implicit Types (q d : document) (c : collection) (id : string).

Lemma unique_ids_cons d c :
  unique_ids (d :: c) <->
  (forall v, d !! "item_id" = Some v ->
             forall d', d' ∈ c -> d' !! "item_id" <> Some v)
  /\ unique_ids c.
Proof.
  unfold unique_ids. cbn [omap list_omap].
  destruct (d !! "item_id") as [v|] eqn:E.
  - rewrite NoDup_cons, list_elem_of_omap. split.
    + intros [Hn Hc]. split; [|done].
      intros v' [= <-] d' Hd' Hv. apply Hn. eauto.
    + intros [Hn Hc]. split; [|done].
      intros (d' & Hd' & Hv). by apply (Hn v eq_refl d').
  - split; [|tauto]. intros H. split; [|done]. discriminate.
Qed.

Lemma delete_one_elem q c d :
  d ∈ snd (delete_one q c) -> d ∈ c.
Proof.
  induction c as [|d0 c IH]; simpl; [done|].
  destruct (matches q d0).
  - simpl. by right.
  - destruct (delete_one q c) as [r c']. simpl in *.
    intros [-> | H]%elem_of_cons; [left | right; auto].
Qed.

Lemma delete_one_count q c :
  deleted_count (fst (delete_one q c))
  = match find_one q c with Some _ => 1 | None => 0 end.
Proof.
  induction c as [|d0 c IH]; simpl; [done|].
  rewrite find_one_cons. destruct (matches q d0); [done|].
  by destruct (delete_one q c).
Qed.

Lemma delete_one_unique_ids q c :
  unique_ids c -> unique_ids (snd (delete_one q c)).
Proof.
  induction c as [|d0 c IH]; simpl; [done|].
  intros [Hd0 Hc]%unique_ids_cons. destruct (matches q d0); [done|].
  pose proof (delete_one_elem q c) as Hsub.
  destruct (delete_one q c) as [r c']. simpl in *.
  apply unique_ids_cons. split; [|auto].
  intros v Hv d' Hd'. apply (Hd0 v Hv). auto.
Qed.

(** With unique identifiers, deleting by identifier leaves no item with
    that identifier. *)
Lemma delete_one_gone id c :
  unique_ids c ->
  forall d, d ∈ snd (delete_one {["item_id" := VStr id]} c) ->
            d !! "item_id" <> Some (VStr id).
Proof.
  induction c as [|d0 c IH]; simpl.
  - intros _ d Hd. inversion Hd.
  - intros [Hd0 Hc]%unique_ids_cons.
    destruct (matches _ d0) eqn:E.
    + simpl. apply (Hd0 (VStr id)). apply matches_singleton. by rewrite E.
    + specialize (IH Hc). destruct (delete_one _ c) as [r c']. simpl in *.
      intros d [-> | Hd]%elem_of_cons; [|auto].
      intros Hm%matches_singleton. by rewrite E in Hm.
Qed.

Lemma update_one_count q fields c :
  modified_count (fst (update_one q fields c))
  = match find_one q c with
    | Some d => if bool_decide (fields ∪ d = d) then 0 else 1
    | None => 0
    end.
Proof.
  induction c as [|d0 c IH]; simpl; [done|].
  rewrite find_one_cons. destruct (matches q d0); [done|].
  by destruct (update_one q fields c).
Qed.

(** A write that modified no row left the collection as it was. *)
Lemma update_one_unmodified q fields c :
  modified_count (fst (update_one q fields c)) = 0 ->
  snd (update_one q fields c) = c.
Proof.
  induction c as [|d0 c IH]; simpl; [done|].
  destruct (matches q d0).
  - simpl. case_bool_decide as E; [by rewrite E | discriminate].
  - destruct (update_one q fields c) as [r c']. simpl in *.
    intros H. by rewrite (IH H).
Qed.

Lemma set_field_unchanged (k : string) (v : value) d :
  {[k := v]} ∪ d = d <-> d !! k = Some v.
Proof.
  rewrite <- insert_union_singleton_l. split.
  - intros <-. apply lookup_insert_eq.
  - apply insert_id.
Qed.
End Writes.

(** ** Properties of the mutating handlers *)

(** C1. A mutating request (create, update quantity, delete) whose
    credential is missing or does not exist in the credential store fails
    with Unauthorized, and the database it leaves behind is the one it
    started from: the exception is raised by the teacher check, which runs
    before any operation on the stock collection. *)
Theorem unauthorized_before_any_mutation
    (st : db) (cred : option string)
    (item : StockItem.t) (id : string) (upd : StockUpdate.t) :
  rejected_credential cred (teachers_collection st) ->
  (fails_with (fst (create_stock_item item cred st)) Unauthorized
   /\ snd (create_stock_item item cred st) = st)
  /\ (fails_with (fst (update_stock_quantity id upd cred st)) Unauthorized
      /\ snd (update_stock_quantity id upd cred st) = st)
  /\ (fails_with (fst (delete_stock_item id cred st)) Unauthorized
      /\ snd (delete_stock_item id cred st) = st).
Proof.
  intros Hrej.
  destruct (create_rejected st cred item Hrej) as [d1 ->].
  destruct (update_rejected st cred id upd Hrej) as [d2 ->].
  destruct (delete_rejected st cred id Hrej) as [d3 ->].
  unfold fails_with; simpl; eauto 10.
Qed.

(** C9. With a missing or invalid credential the result is Unauthorized
    whatever the stock collection holds, because the teacher check comes
    before the existence and duplicate checks: an unauthorized update or
    delete is answered Unauthorized and not NotFound even when the
    identifier is missing, and an unauthorized create is answered
    Unauthorized and not Conflict even when the identifier is a
    duplicate. *)
Theorem unauthorized_regardless_of_stock
    (teachers : collection) (cred : option string)
    (item : StockItem.t) (id : string) (upd : StockUpdate.t) :
  rejected_credential cred teachers ->
  forall stock : collection,
    (fails_with (fst (create_stock_item item cred (Db stock teachers)))
       Unauthorized
     /\ ~ fails_with (fst (create_stock_item item cred (Db stock teachers)))
          Conflict)
    /\ (fails_with (fst (update_stock_quantity id upd cred (Db stock teachers)))
          Unauthorized
        /\ ~ fails_with
             (fst (update_stock_quantity id upd cred (Db stock teachers)))
             NotFound)
    /\ (fails_with (fst (delete_stock_item id cred (Db stock teachers)))
          Unauthorized
        /\ ~ fails_with (fst (delete_stock_item id cred (Db stock teachers)))
             NotFound).
Proof.
  intros Hrej stock.
  destruct (create_rejected (Db stock teachers) cred item Hrej) as [d1 ->].
  destruct (update_rejected (Db stock teachers) cred id upd Hrej) as [d2 ->].
  destruct (delete_rejected (Db stock teachers) cred id Hrej) as [d3 ->].
  unfold fails_with; simpl.
  repeat split; eauto; intros [? [=]].
Qed.

(** C5. Creating an item whose identifier is already in the store fails
    with Conflict for a valid credential, whatever the other fields of the
    submitted item are, and the database is left as it was. *)
Theorem create_duplicate_conflict
    (st : db) (cred : option string) (item : StockItem.t) :
  valid_credential cred (teachers_collection st) ->
  has_item (StockItem.item_id item) (stock_collection st) ->
  fails_with (fst (create_stock_item item cred st)) Conflict
  /\ snd (create_stock_item item cred st) = st.
Proof.
  intros Hv Hd. rewrite (create_valid _ _ _ Hv).
  apply truthy_find_one, Is_true_true in Hd. rewrite Hd.
  split; [by eexists | done].
Qed.

(** C6. With a valid credential, deleting an identifier that is not in
    the store fails with NotFound; and when the identifier is in the store
    (identifiers being unique, as the data model has them), the first of
    two deletes in a row succeeds and the second fails with NotFound. *)
Theorem delete_missing_and_twice
    (st : db) (cred : option string) (id : string) :
  valid_credential cred (teachers_collection st) ->
  (~ has_item id (stock_collection st) ->
   fails_with (fst (delete_stock_item id cred st)) NotFound)
  /\ (unique_ids (stock_collection st) ->
      has_item id (stock_collection st) ->
      succeeds (fst (delete_stock_item id cred st))
      /\ fails_with
           (fst (delete_stock_item id cred (snd (delete_stock_item id cred st))))
           NotFound).
Proof.
  intros Hv. split.
  - intros Hno. rewrite (delete_valid _ _ _ Hv).
    assert (E : truthy_doc (find_one {["item_id" := VStr id]}
                              (stock_collection st)) = false).
    { apply truthy_find_one_false. intros d Hd Hid. apply Hno. by exists d. }
    rewrite E. by eexists.
  - intros Hu Hd. rewrite (delete_valid _ _ _ Hv).
    pose proof Hd as Ht. apply truthy_find_one, Is_true_true in Ht.
    rewrite Ht. cbn zeta. rewrite delete_one_count.
    destruct (find_one _ (stock_collection st)) eqn:Ef; [|discriminate].
    cbn [Z.eqb fst snd]. split; [by eexists|].
    rewrite delete_valid by done. cbn [stock_collection].
    assert (E : truthy_doc
                  (find_one {["item_id" := VStr id]}
                     (snd (delete_one {["item_id" := VStr id]}
                             (stock_collection st)))) = false).
    { apply truthy_find_one_false. by apply delete_one_gone. }
    rewrite E. by eexists.
Qed.

(** C4. With a valid credential and an existing item, the quantity
    update fails with InternalError exactly when the store reports zero
    modified rows; in particular an update to the quantity the item
    already has modifies no row and is answered InternalError, not
    success. *)
Theorem update_zero_modified_internal_error
    (st : db) (cred : option string) (id : string) (upd : StockUpdate.t) :
  valid_credential cred (teachers_collection st) ->
  has_item id (stock_collection st) ->
  let result :=
    fst (update_one {["item_id" := VStr id]}
           {["quantity" := VInt (StockUpdate.quantity upd)]}
           (stock_collection st)) in
  (fails_with (fst (update_stock_quantity id upd cred st)) InternalError
   <-> modified_count result = 0)
  /\ (forall d,
         find_one {["item_id" := VStr id]} (stock_collection st) = Some d ->
         d !! "quantity" = Some (VInt (StockUpdate.quantity upd)) ->
         modified_count result = 0
         /\ fails_with (fst (update_stock_quantity id upd cred st)) InternalError
         /\ ~ succeeds (fst (update_stock_quantity id upd cred st))).
Proof.
  intros Hv Hd result. rewrite (update_valid _ _ _ _ Hv).
  apply truthy_find_one, Is_true_true in Hd. rewrite Hd. cbn zeta.
  fold result. cbn [fst].
  assert (Hsame : forall d,
             find_one {["item_id" := VStr id]} (stock_collection st) = Some d ->
             d !! "quantity" = Some (VInt (StockUpdate.quantity upd)) ->
             modified_count result = 0).
  { intros d Hf Hq. unfold result. rewrite update_one_count, Hf.
    apply set_field_unchanged in Hq. by rewrite bool_decide_eq_true_2. }
  destruct (Z.eqb_spec (modified_count result) 0) as [E0|E0].
  - split; [split; [done | intros _; by eexists]|].
    intros d Hf Hq. split; [done|]. split; [by eexists|]. intros [? [=]].
  - split; [split; [intros [? [=]] | done]|].
    intros d Hf Hq. destruct E0. by apply (Hsame d).
Qed.

(** C2. With a valid credential, creating an item whose identifier is
    not yet in the store succeeds, and getting that identifier afterwards
    succeeds and returns the dict of the item as it was submitted: each of
    item_id, name, category, quantity, unit, location and min_quantity has
    the value supplied at creation. *)
Theorem create_then_get
    (st : db) (cred : option string) (item : StockItem.t) :
  valid_credential cred (teachers_collection st) ->
  ~ has_item (StockItem.item_id item) (stock_collection st) ->
  succeeds (fst (create_stock_item item cred st))
  /\ exists r,
      fst (get_stock_item (StockItem.item_id item)
             (snd (create_stock_item item cred st))) = Ok r
      /\ r = model_dump item
      /\ r !! "item_id" = Some (VStr (StockItem.item_id item))
      /\ r !! "name" = Some (VStr (StockItem.name item))
      /\ r !! "category" = Some (VStr (StockItem.category item))
      /\ r !! "quantity" = Some (VInt (StockItem.quantity item))
      /\ r !! "unit" = Some (VStr (StockItem.unit item))
      /\ r !! "location" = Some (VStr (StockItem.location item))
      /\ r !! "min_quantity" = Some (VInt (StockItem.min_quantity item)).
Proof.
  intros Hv Hfresh. rewrite (create_valid _ _ _ Hv).
  assert (E : truthy_doc
                (find_one {["item_id" := VStr (StockItem.item_id item)]}
                   (stock_collection st)) = false).
  { apply truthy_find_one_false. intros d Hd Hid. apply Hfresh. by exists d. }
  rewrite E. cbn [fst snd]. split; [by eexists|].
  exists (model_dump item). split.
  - unfold get_stock_item. unfold_monad. cbn [stock_collection].
    assert (Hnone : model_dump item !! "_id" = None) by done.
    unfold insert_one. rewrite Hnone.
    set (d := <["_id" := _]> (model_dump item)).
    erewrite (find_one_app_r _ _ d).
    + assert (Ht : truthy_doc (Some d) = true).
      { apply bool_decide_eq_true. intros Hd.
        assert (d !! "_id" = None) by (by rewrite Hd).
        unfold d in *. by simplify_map_eq. }
      rewrite Ht. cbn [negb fst]. unfold d.
      by rewrite delete_insert_eq, delete_id.
    + intros d' Hd' Hm%matches_singleton.
      by apply truthy_find_one_false with (d := d') in E.
    + apply matches_singleton. unfold d. by simplify_map_eq.
  - unfold model_dump. repeat split; by simplify_map_eq.
Qed.

(** ** The order on strings and [sorted] *)

Section StringOrder.
Implicit Types (a b c : string).

Lemma ltb_lt a b : String.ltb a b = true <-> String_as_OT.lt a b.
Proof.
  unfold String.ltb. rewrite <- String_as_OT.cmp_lt.
  unfold String_as_OT.cmp. destruct (String.compare a b); split; congruence.
Qed.

Lemma ltb_irrefl a : String.ltb a a = false.
Proof.
  unfold String.ltb.
  assert (String.compare a a = Eq) as ->; [|done].
  by apply String_as_OT.cmp_eq.
Qed.

Lemma ltb_asym a b : String.ltb a b = true -> String.ltb b a = false.
Proof.
  unfold String.ltb. rewrite (String.compare_antisym a b).
  by destruct (String.compare b a).
Qed.

Lemma ltb_trans a b c :
  String.ltb a b = true -> String.ltb b c = true -> String.ltb a c = true.
Proof. rewrite !ltb_lt. apply String_as_OT.lt_trans. Qed.

Lemma ltb_total a b :
  String.ltb a b = true \/ a = b \/ String.ltb b a = true.
Proof.
  unfold String.ltb. rewrite (String.compare_antisym a b).
  destruct (String.compare b a) eqn:E; simpl; auto.
  right; left. symmetry. by apply String.compare_eq_iff.
Qed.

Lemma str_lt_le a b : str_lt a b -> str_le a b.
Proof. apply ltb_asym. Qed.

Lemma str_le_trans a b c : str_le a b -> str_le b c -> str_le a c.
Proof.
  unfold str_le. intros Hab Hbc.
  destruct (String.ltb c a) eqn:Hca; [|done].
  destruct (ltb_total a b) as [Hlt | [-> | Hlt]]; [|congruence..].
  assert (String.ltb c b = true) by eauto using ltb_trans. congruence.
Qed.

Lemma str_le_neq_lt a b : str_le a b -> a <> b -> str_lt a b.
Proof.
  unfold str_le, str_lt. intros Hle Hne.
  destruct (ltb_total a b) as [Hlt | [-> | Hlt]]; congruence.
Qed.

(** A list sorted by [str_le] without repetition is strictly
    increasing. *)
Lemma sorted_NoDup_strict (l : list string) :
  StronglySorted str_le l -> NoDup l -> StronglySorted str_lt l.
Proof.
  induction 1 as [|a l Hs IH Hall]; [constructor|].
  intros [Hnotin Hnd]%NoDup_cons. constructor; [auto|].
  rewrite Forall_forall in *. intros b Hb.
  apply str_le_neq_lt; [auto|]. intros ->. by apply Hnotin.
Qed.

Lemma sorted_insert_strings a (l : list string) :
  StronglySorted str_le l ->
  exists l', sorted_insert (VStr a) (VStr <$> l) = Ok (VStr <$> l')
             /\ l' ≡ₚ a :: l /\ StronglySorted str_le l'.
Proof.
  induction 1 as [|b l Hs IH Hall].
  - exists [a]. repeat split; [done | repeat constructor].
  - rewrite fmap_cons. cbn [sorted_insert py_lt obind].
    destruct (String.ltb b a) eqn:E.
    + destruct IH as (l' & -> & Hp & Hs'). cbn [obind].
      exists (b :: l'). split; [done|]. split.
      * rewrite Hp. apply perm_swap.
      * constructor; [done|]. rewrite Hp. constructor; [|done].
        by apply ltb_asym.
    + exists (a :: b :: l). repeat split; [done|].
      constructor; [by constructor|]. constructor; [done|].
      eapply Forall_impl; [exact Hall|]. intros c Hc.
      by apply str_le_trans with b.
Qed.

Lemma sorted_strings (l : list string) :
  exists l', sorted (VStr <$> l) = Ok (VStr <$> l')
             /\ l' ≡ₚ l /\ StronglySorted str_le l'.
Proof.
  induction l as [|a l (l1 & IH & Hp & Hs)].
  - exists []. repeat split; constructor.
  - rewrite fmap_cons. cbn [sorted]. rewrite IH. cbn [obind].
    destruct (sorted_insert_strings a l1 Hs) as (l2 & -> & Hp2 & Hs2).
    exists l2. repeat split; [|done]. by rewrite Hp2, Hp.
Qed.

Lemma validate_strings (l : list string) :
  validate_str_list (VStr <$> l) = Ok l.
Proof.
  induction l as [|a l IH]; [done|].
  rewrite fmap_cons. cbn [validate_str_list]. by rewrite IH.
Qed.
End StringOrder.

(** ** Properties of the read handlers *)

Section Reads.
Implicit Types (st : db) (c : collection) (d item : document).

Lemma strings_of_values (vs : list value) :
  Forall (fun v => exists s, v = VStr s) vs ->
  exists ls : list string, vs = VStr <$> ls.
Proof.
  induction 1 as [|v vs [s ->] _ [ls ->]].
  - by exists [].
  - by exists (s :: ls).
Qed.

Lemma elem_of_distinct (k : string) c v :
  v ∈ distinct k c <-> exists d, d ∈ c /\ d !! k = Some v.
Proof. unfold distinct. by rewrite elem_of_remove_dups, list_elem_of_omap. Qed.

Lemma get_stock_items_eq category low_stock st :
  get_stock_items category low_stock st =
  (let items := (fun item : document => delete "_id" item)
                  <$> find (category_query category) (stock_collection st) in
   if truthy_bool low_stock then comprehension below_minimum items
   else Ok items, st).
Proof.
  unfold get_stock_items. unfold_monad. cbn zeta.
  by destruct (truthy_bool low_stock).
Qed.

Lemma comprehension_elem {A} (p : A -> outcome bool) (l l' : list A) x :
  comprehension p l = Ok l' -> x ∈ l' -> x ∈ l.
Proof.
  revert l'. induction l as [|y l IH]; simpl; intros l'.
  - intros [= <-]. done.
  - destruct (p y) as [keep|]; [|done]. simpl.
    destruct (comprehension p l) as [rest|]; [|done]. simpl.
    intros [= <-] Hx. destruct keep.
    + apply elem_of_cons in Hx as [-> | Hx]; [left | right; eauto].
    + right. eauto.
Qed.

Lemma below_minimum_ints item :
  int_levels item ->
  below_minimum item = Ok (bool_decide (is_low_stock item)).
Proof.
  intros (q & m & Hq & Hm). unfold below_minimum, getitem.
  rewrite Hq, Hm. simpl. f_equal.
  destruct (Z.ltb_spec q m); symmetry;
    [apply bool_decide_eq_true | apply bool_decide_eq_false];
    unfold is_low_stock; rewrite Hq, Hm; lia.
Qed.

Lemma comprehension_low_stock (l : list document) :
  Forall int_levels l ->
  comprehension below_minimum l = Ok (filter is_low_stock l).
Proof.
  induction 1 as [|item l Hi _ IH]; [done|].
  cbn [comprehension]. rewrite (below_minimum_ints _ Hi), IH. cbn [obind].
  rewrite filter_cons. by case_bool_decide; case_decide.
Qed.

Lemma is_low_stock_spec item :
  is_low_stock item <->
  exists q m, item !! "quantity" = Some (VInt q)
              /\ item !! "min_quantity" = Some (VInt m) /\ q < m.
Proof.
  unfold is_low_stock. split.
  - destruct (item !! "quantity") as [[|q|]|]; try done.
    destruct (item !! "min_quantity") as [[|m|]|]; try done. eauto.
  - intros (q & m & -> & -> & H). done.
Qed.

Lemma int_levels_delete_oid d : int_levels d -> int_levels (delete "_id" d).
Proof.
  intros (q & m & Hq & Hm). exists q, m.
  by rewrite !lookup_delete_ne.
Qed.
End Reads.

(** C7. When the categories of the stored items are strings, the
    categories operation succeeds and returns a strictly increasing list
    in the lexicographic order of strings, hence without any duplicate,
    whose members are exactly the category values that occur in the store,
    however many items share one. *)
Theorem categories_distinct_sorted (st : db) :
  Forall str_category (stock_collection st) ->
  exists l : list string,
    get_categories st = (Ok l, st)
    /\ StronglySorted str_lt l
    /\ NoDup l
    /\ forall s, s ∈ l <->
                 exists d, d ∈ stock_collection st
                           /\ d !! "category" = Some (VStr s).
Proof.
  intros Hstr.
  assert (Hvs : Forall (fun v => exists s, v = VStr s)
                  (distinct "category" (stock_collection st))).
  { apply Forall_forall. intros v (d & Hd & Hv)%elem_of_distinct.
    rewrite Forall_forall in Hstr. by apply (Hstr d Hd). }
  destruct (strings_of_values _ Hvs) as [ls Hls].
  destruct (sorted_strings ls) as (l & Hsort & Hperm & Hsorted).
  assert (Hnd : NoDup l).
  { rewrite Hperm. apply (NoDup_fmap_1 VStr). rewrite <- Hls.
    apply NoDup_remove_dups. }
  exists l. split; [|split; [|split]].
  - unfold get_categories. unfold_monad. rewrite Hls, Hsort.
    by rewrite validate_strings.
  - by apply sorted_NoDup_strict.
  - done.
  - intros s. rewrite Hperm, <- elem_of_distinct, Hls.
    split.
    + intros Hs. by apply list_elem_of_fmap_2.
    + intros (s' & [= ->] & Hs)%list_elem_of_fmap. done.
Qed.

Section ReadResponses.
Implicit Types (st : db) (c : collection) (d item : document).

Lemma model_dump_no_oid (it : StockItem.t) : model_dump it !! "_id" = None.
Proof. done. Qed.

Lemma dom_model_dump (it : StockItem.t) : dom (model_dump it) = declared_fields.
Proof.
  unfold model_dump, declared_fields. rewrite !dom_insert_L, dom_empty_L.
  set_solver.
Qed.

Lemma stored_item_response d :
  stored_item d ->
  exists it, delete "_id" d = model_dump it.
Proof.
  intros (oid & it & ->). exists it.
  by rewrite delete_insert_eq, delete_id.
Qed.

Lemma stored_item_int_levels d : stored_item d -> int_levels d.
Proof.
  intros (oid & it & ->).
  exists (StockItem.quantity it), (StockItem.min_quantity it).
  unfold model_dump. split; by simplify_map_eq.
Qed.

Lemma stored_item_str_category d : stored_item d -> str_category d.
Proof.
  intros (oid & it & ->) v. unfold model_dump.
  rewrite lookup_insert_ne by done. rewrite lookup_insert_ne by done.
  rewrite lookup_insert_ne by done. rewrite lookup_insert_eq.
  intros [= <-]. eauto.
Qed.

(** Every item of a list response is a found document without its
    [_id]. *)
Lemma get_stock_items_elem category low_stock st items item :
  fst (get_stock_items category low_stock st) = Ok items ->
  item ∈ items ->
  exists d, d ∈ stock_collection st
            /\ matches (category_query category) d
            /\ item = delete "_id" d.
Proof.
  rewrite get_stock_items_eq. cbn [fst]. intros Hres Hitem.
  assert (Hin : item ∈ (fun item : document => delete "_id" item)
                       <$> find (category_query category)
                             (stock_collection st)).
  { destruct (truthy_bool low_stock).
    - by eapply comprehension_elem.
    - by injection Hres as <-. }
  apply list_elem_of_fmap in Hin as (d & -> & Hd).
  apply list_elem_of_filter in Hd as [Hm Hd]. eauto.
Qed.

Lemma get_stock_item_elem id st item :
  fst (get_stock_item id st) = Ok item ->
  exists d, d ∈ stock_collection st
            /\ d !! "item_id" = Some (VStr id)
            /\ item = delete "_id" d.
Proof.
  unfold get_stock_item. unfold_monad. cbn.
  destruct (find_one _ (stock_collection st)) as [d|] eqn:E; [|done].
  apply find_one_Some in E as [Hd Hm%matches_singleton].
  destruct (negb _); [done|]. intros [= <-]. eauto.
Qed.

Lemma blank_category_unfiltered low_stock st :
  get_stock_items (Some "") low_stock st = get_stock_items None low_stock st.
Proof. reflexivity. Qed.
End ReadResponses.

(** C8, as amended. For every store state and every non-empty category
    argument, the list-items operation returns only items whose category
    is exactly the supplied value, with or without the low-stock
    post-filter. *)
Theorem category_filter_nonempty
    (st : db) (c : string) (low_stock : option bool) (items : list document) :
  c <> "" ->
  fst (get_stock_items (Some c) low_stock st) = Ok items ->
  forall item, item ∈ items -> item !! "category" = Some (VStr c).
Proof.
  intros Hne Hres item Hitem.
  destruct (get_stock_items_elem _ _ _ _ _ Hres Hitem) as (d & _ & Hm & ->).
  unfold category_query in Hm. apply truthy_str_Some in Hne. rewrite Hne in Hm.
  rewrite insert_empty in Hm. apply matches_singleton in Hm.
  by rewrite lookup_delete_ne.
Qed.

(** C10. Every item of a successful list response and the item of a
    successful get response has no [_id] key; and when the store holds
    stored items (the declared fields plus [_id]), the keys of every
    returned item are exactly the declared fields. *)
Theorem read_responses_without_oid (st : db) :
  (forall category low_stock items item,
      fst (get_stock_items category low_stock st) = Ok items ->
      item ∈ items ->
      item !! "_id" = None
      /\ (Forall stored_item (stock_collection st) ->
          dom item = declared_fields))
  /\ (forall id item,
         fst (get_stock_item id st) = Ok item ->
         item !! "_id" = None
         /\ (Forall stored_item (stock_collection st) ->
             dom item = declared_fields)).
Proof.
  assert (Hdoc : forall d,
             d ∈ stock_collection st ->
             delete "_id" d !! "_id" = None
             /\ (Forall stored_item (stock_collection st) ->
                 dom (delete "_id" d) = declared_fields)).
  { intros d Hd. split; [apply lookup_delete_eq|].
    rewrite Forall_forall. intros Hall.
    destruct (stored_item_response d (Hall d Hd)) as [it ->].
    apply dom_model_dump. }
  split.
  - intros category low_stock items item Hres Hitem.
    destruct (get_stock_items_elem _ _ _ _ _ Hres Hitem) as (d & Hd & _ & ->).
    by apply Hdoc.
  - intros id item Hres.
    destruct (get_stock_item_elem _ _ _ Hres) as (d & Hd & _ & ->).
    by apply Hdoc.
Qed.

(** ** The data-model invariant is kept by every handler *)

Section Invariant.
Implicit Types (st : db) (c : collection) (d : document).

Lemma valid_or_rejected (cred : option string) (teachers : collection) :
  valid_credential cred teachers \/ rejected_credential cred teachers.
Proof.
  destruct cred as [u|]; [|right; by left].
  destruct (decide (u = "")) as [-> | Hne]; [right; right; by left|].
  destruct (truthy_doc (find_one {["_id" := VStr u]} teachers)) eqn:E.
  - left. exists u. repeat split; [done|].
    by apply truthy_find_one, Is_true_true.
  - right; right; right. exists u. split; [done|].
    intros (d & Hd & Hid).
    by apply truthy_find_one_false with (d := d) in E.
Qed.

Lemma wf_stock_nil : wf_stock [].
Proof. split; constructor. Qed.

Lemma insert_one_wf (item : StockItem.t) c :
  wf_stock c -> ~ has_item (StockItem.item_id item) c ->
  wf_stock (insert_one (model_dump item) c).
Proof.
  intros [Hall Hu] Hfresh. unfold insert_one.
  rewrite model_dump_no_oid. split.
  - apply Forall_app. split; [done|]. constructor; [|constructor].
    by eexists _, item.
  - unfold unique_ids in *. rewrite omap_app. apply NoDup_app.
    split; [done|]. split.
    + intros v (d & Hd & Hv)%list_elem_of_omap. cbn.
      rewrite lookup_insert_ne by done. unfold model_dump.
      rewrite lookup_insert_eq. intros ->%list_elem_of_singleton.
      apply Hfresh. by exists d.
    + cbn. rewrite lookup_insert_ne by done. unfold model_dump.
      rewrite lookup_insert_eq. apply NoDup_singleton.
Qed.

Lemma set_quantity_stored (q : Z) d :
  stored_item d -> stored_item ({["quantity" := VInt q]} ∪ d).
Proof.
  intros (oid & it & ->).
  exists oid,
    (StockItem.Build (StockItem.item_id it) (StockItem.name it)
       (StockItem.category it) q (StockItem.unit it)
       (StockItem.location it) (StockItem.min_quantity it)).
  rewrite <- insert_union_singleton_l. unfold model_dump. cbn.
  apply map_eq. intros k. rewrite !lookup_insert.
  repeat case_decide; simplify_eq; done.
Qed.

Lemma update_one_quantity_wf (q0 : document) (q : Z) c :
  wf_stock c ->
  wf_stock (snd (update_one q0 {["quantity" := VInt q]} c)).
Proof.
  intros [Hall Hu].
  assert (Hids : omap (fun d : document => d !! "item_id")
                   (snd (update_one q0 {["quantity" := VInt q]} c))
                 = omap (fun d : document => d !! "item_id") c).
  { clear. induction c as [|d c IH]; simpl; [done|].
    destruct (matches q0 d).
    - cbn. rewrite lookup_union_r; [done|]. by apply lookup_singleton_ne.
    - destruct (update_one q0 _ c) as [r c']. cbn in *. by rewrite IH. }
  split; [|unfold unique_ids; by rewrite Hids].
  clear Hu Hids. induction Hall as [|d c Hd Hall IH]; simpl; [constructor|].
  destruct (matches q0 d).
  - constructor; [by apply set_quantity_stored | done].
  - destruct (update_one q0 _ c) as [r c']. cbn in *. by constructor.
Qed.

Lemma delete_one_wf (q0 : document) c :
  wf_stock c -> wf_stock (snd (delete_one q0 c)).
Proof.
  intros [Hall Hu]. split; [|by apply delete_one_unique_ids].
  rewrite Forall_forall in *. intros d Hd%delete_one_elem. auto.
Qed.

(** The stock collection starts well-formed when empty and stays
    well-formed under every mutating handler, whatever the request. *)
Lemma handlers_keep_wf st (cred : option string) (item : StockItem.t)
    (id : string) (upd : StockUpdate.t) :
  wf_stock (stock_collection st) ->
  wf_stock (stock_collection (snd (create_stock_item item cred st)))
  /\ wf_stock (stock_collection (snd (update_stock_quantity id upd cred st)))
  /\ wf_stock (stock_collection (snd (delete_stock_item id cred st))).
Proof.
  intros Hwf.
  destruct (valid_or_rejected cred (teachers_collection st)) as [Hv | Hr].
  - rewrite (create_valid _ _ _ Hv), (update_valid _ _ _ _ Hv),
      (delete_valid _ _ _ Hv).
    split; [|split].
    + destruct (truthy_doc _) eqn:E; [done|]. cbn.
      apply insert_one_wf; [done|].
      intros (d & Hd & Hid).
      by apply truthy_find_one_false with (d := d) in E.
    + destruct (truthy_doc _); [|done]. cbn.
      by apply update_one_quantity_wf.
    + destruct (truthy_doc _); [|done]. cbn. by apply delete_one_wf.
  - destruct (create_rejected st cred item Hr) as [? ->].
    destruct (update_rejected st cred id upd Hr) as [? ->].
    destruct (delete_rejected st cred id Hr) as [? ->]. done.
Qed.
End Invariant.

(** ** The properties on the running example *)

Ltac example_teacher :=
  exists "mrodriguez"; split; [reflexivity|]; split; [discriminate|];
  eexists; split; [apply list_elem_of_here | reflexivity].

Ltac example_stranger u :=
  right; right; exists u; split; [reflexivity|];
  let H := fresh in intros H; apply truthy_find_one in H; exact H.

Ltac example_stored :=
  repeat (constructor; [eexists _, _; reflexivity|]); constructor.

Lemma unauthorized_before_any_mutation_witness :
  rejected_credential (Some "intruder") (teachers_collection example_db)
  /\ ((fails_with
         (fst (create_stock_item whistles (Some "intruder") example_db))
         Unauthorized
       /\ snd (create_stock_item whistles (Some "intruder") example_db)
          = example_db)
      /\ (fails_with
            (fst (update_stock_quantity "A1" (StockUpdate.Build 7)
                    (Some "intruder") example_db))
            Unauthorized
          /\ snd (update_stock_quantity "A1" (StockUpdate.Build 7)
                    (Some "intruder") example_db)
             = example_db)
      /\ (fails_with
            (fst (delete_stock_item "A1" (Some "intruder") example_db))
            Unauthorized
          /\ snd (delete_stock_item "A1" (Some "intruder") example_db)
             = example_db)).
Proof.
  assert (H : rejected_credential (Some "intruder")
                (teachers_collection example_db))
    by example_stranger "intruder".
  split; [exact H|].
  exact (unauthorized_before_any_mutation example_db (Some "intruder")
           whistles "A1" (StockUpdate.Build 7) H).
Defined.

Lemma unauthorized_regardless_of_stock_witness :
  rejected_credential None example_teachers
  /\ (fails_with
        (fst (create_stock_item art_brushes None
                (Db example_stock example_teachers)))
        Unauthorized
      /\ ~ fails_with
           (fst (create_stock_item art_brushes None
                   (Db example_stock example_teachers)))
           Conflict)
  /\ (fails_with
        (fst (delete_stock_item "A9" None (Db example_stock example_teachers)))
        Unauthorized
      /\ ~ fails_with
           (fst (delete_stock_item "A9" None
                   (Db example_stock example_teachers)))
           NotFound).
Proof.
  assert (H : rejected_credential None example_teachers) by (by left).
  split; [exact H|].
  pose proof (unauthorized_regardless_of_stock example_teachers None
                art_brushes "A9" (StockUpdate.Build 7) H example_stock)
    as (Hc & _ & Hd).
  split; [exact Hc | exact Hd].
Defined.

Lemma create_duplicate_conflict_witness :
  valid_credential (Some "mrodriguez") (teachers_collection example_db)
  /\ has_item "A1" (stock_collection example_db)
  /\ fails_with
       (fst (create_stock_item
               (StockItem.Build "A1" "Rackets" "Sports Equipment" 8 "pair"
                  "Gym" 2)
               (Some "mrodriguez") example_db))
       Conflict
  /\ snd (create_stock_item
            (StockItem.Build "A1" "Rackets" "Sports Equipment" 8 "pair"
               "Gym" 2)
            (Some "mrodriguez") example_db)
     = example_db.
Proof.
  assert (Hv : valid_credential (Some "mrodriguez")
                 (teachers_collection example_db)) by example_teacher.
  assert (Hi : has_item "A1" (stock_collection example_db))
    by (eexists; split; [apply list_elem_of_here | reflexivity]).
  split; [exact Hv|]. split; [exact Hi|].
  exact (create_duplicate_conflict example_db (Some "mrodriguez")
           (StockItem.Build "A1" "Rackets" "Sports Equipment" 8 "pair"
              "Gym" 2) Hv Hi).
Defined.

Lemma delete_missing_and_twice_witness :
  valid_credential (Some "mrodriguez") (teachers_collection example_db)
  /\ unique_ids (stock_collection example_db)
  /\ has_item "A2" (stock_collection example_db)
  /\ succeeds (fst (delete_stock_item "A2" (Some "mrodriguez") example_db))
  /\ fails_with
       (fst (delete_stock_item "A2" (Some "mrodriguez")
               (snd (delete_stock_item "A2" (Some "mrodriguez") example_db))))
       NotFound.
Proof.
  assert (Hv : valid_credential (Some "mrodriguez")
                 (teachers_collection example_db)) by example_teacher.
  assert (Hu : unique_ids (stock_collection example_db)).
  { apply (bool_decide_unpack _). vm_compute. exact I. }
  assert (Hi : has_item "A2" (stock_collection example_db)).
  { eexists. split; [apply list_elem_of_further, list_elem_of_here|].
    reflexivity. }
  split; [exact Hv|]. split; [exact Hu|]. split; [exact Hi|].
  exact (proj2 (delete_missing_and_twice example_db (Some "mrodriguez") "A2"
                  Hv) Hu Hi).
Defined.

Lemma update_zero_modified_internal_error_witness :
  valid_credential (Some "mrodriguez") (teachers_collection example_db)
  /\ has_item "A1" (stock_collection example_db)
  /\ fails_with
       (fst (update_stock_quantity "A1" (StockUpdate.Build 2)
               (Some "mrodriguez") example_db))
       InternalError.
Proof.
  assert (Hv : valid_credential (Some "mrodriguez")
                 (teachers_collection example_db)) by example_teacher.
  assert (Hi : has_item "A1" (stock_collection example_db))
    by (eexists; split; [apply list_elem_of_here | reflexivity]).
  split; [exact Hv|]. split; [exact Hi|].
  pose proof (update_zero_modified_internal_error example_db
                (Some "mrodriguez") "A1" (StockUpdate.Build 2) Hv Hi)
    as [_ Hsame].
  exact (proj1 (proj2 (Hsame (<["_id" := VOid 1]> (model_dump art_brushes))
                         eq_refl eq_refl))).
Defined.

Lemma create_then_get_witness :
  valid_credential (Some "mrodriguez") (teachers_collection example_db)
  /\ ~ has_item "A4" (stock_collection example_db)
  /\ succeeds (fst (create_stock_item whistles (Some "mrodriguez") example_db))
  /\ fst (get_stock_item "A4"
            (snd (create_stock_item whistles (Some "mrodriguez") example_db)))
     = Ok (model_dump whistles).
Proof.
  assert (Hv : valid_credential (Some "mrodriguez")
                 (teachers_collection example_db)) by example_teacher.
  assert (Hf : ~ has_item "A4" (stock_collection example_db)).
  { intros H. apply truthy_find_one in H. exact H. }
  split; [exact Hv|]. split; [exact Hf|].
  destruct (create_then_get example_db (Some "mrodriguez") whistles Hv Hf)
    as (Hok & r & Hget & -> & _).
  split; [exact Hok | exact Hget].
Defined.

Lemma categories_distinct_sorted_witness :
  Forall str_category (stock_collection example_db)
  /\ exists l : list string,
      get_categories example_db = (Ok l, example_db)
      /\ StronglySorted str_lt l
      /\ NoDup l
      /\ forall s, s ∈ l <->
                   exists d, d ∈ stock_collection example_db
                             /\ d !! "category" = Some (VStr s).
Proof.
  assert (Hs : Forall str_category (stock_collection example_db)).
  { eapply Forall_impl; [|exact stored_item_str_category]. example_stored. }
  split; [exact Hs|].
  exact (categories_distinct_sorted example_db Hs).
Defined.

Lemma category_filter_nonempty_witness :
  "Art Supplies" <> ""
  /\ fst (get_stock_items (Some "Art Supplies") None example_db)
     = Ok [model_dump art_brushes; model_dump canvases]
  /\ model_dump canvases ∈ [model_dump art_brushes; model_dump canvases]
  /\ model_dump canvases !! "category" = Some (VStr "Art Supplies").
Proof.
  assert (Hne : "Art Supplies" <> "") by discriminate.
  assert (Hres : fst (get_stock_items (Some "Art Supplies") None example_db)
                 = Ok [model_dump art_brushes; model_dump canvases])
    by reflexivity.
  assert (Hin : model_dump canvases
                ∈ [model_dump art_brushes; model_dump canvases])
    by apply list_elem_of_further, list_elem_of_here.
  split; [exact Hne|]. split; [exact Hres|]. split; [exact Hin|].
  exact (category_filter_nonempty example_db "Art Supplies" None _
           Hne Hres (model_dump canvases) Hin).
Defined.

Lemma read_responses_without_oid_witness :
  Forall stored_item (stock_collection example_db)
  /\ fst (get_stock_items None None example_db)
     = Ok [model_dump art_brushes; model_dump footballs; model_dump canvases]
  /\ fst (get_stock_item "A2" example_db) = Ok (model_dump footballs)
  /\ (model_dump art_brushes !! "_id" = None
      /\ dom (model_dump art_brushes) = declared_fields)
  /\ (model_dump footballs !! "_id" = None
      /\ dom (model_dump footballs) = declared_fields).
Proof.
  assert (Hs : Forall stored_item (stock_collection example_db))
    by example_stored.
  assert (Hl : fst (get_stock_items None None example_db)
               = Ok [model_dump art_brushes; model_dump footballs;
                     model_dump canvases]) by reflexivity.
  assert (Hg : fst (get_stock_item "A2" example_db)
               = Ok (model_dump footballs)) by reflexivity.
  split; [exact Hs|]. split; [exact Hl|]. split; [exact Hg|].
  destruct (read_responses_without_oid example_db) as [Hlist Hget].
  split.
  - destruct (Hlist None None _ (model_dump art_brushes) Hl
                (list_elem_of_here _ _)) as [H1 H2].
    split; [exact H1 | exact (H2 Hs)].
  - destruct (Hget "A2" (model_dump footballs) Hg) as [H1 H2].
    split; [exact H1 | exact (H2 Hs)].
Defined.

(** C8, as stated, fails for the empty category argument: the query then
    carries no category, so a listing with [category=""] returns items
    of other categories. *)
Lemma blank_category_lists_other_categories :
  ~ (forall (st : db) (c : string) (low_stock : option bool)
            (items : list document),
        fst (get_stock_items (Some c) low_stock st) = Ok items ->
        forall item, item ∈ items -> item !! "category" = Some (VStr c)).
Proof.
  intros H.
  assert (Hres : fst (get_stock_items (Some "") None example_db)
                 = Ok [model_dump art_brushes; model_dump footballs;
                       model_dump canvases]) by reflexivity.
  specialize (H example_db "" None _ Hres (model_dump art_brushes)
                (list_elem_of_here _ _)).
  discriminate H.
Qed.

(** The example of the specification: of A1 (2 of at least 5) and A2 (10
    of at least 3) only A1 is low on stock, and the categories come out
    sorted. *)
Example spec_example_low_stock :
  fst (get_stock_items None (Some true)
         (Db [ <["_id" := VOid 1]> (model_dump art_brushes);
               <["_id" := VOid 2]> (model_dump footballs) ] []))
  = Ok [model_dump art_brushes].
Proof. reflexivity. Qed.

Example spec_example_categories :
  fst (get_categories
         (Db [ <["_id" := VOid 2]> (model_dump footballs);
               <["_id" := VOid 1]> (model_dump art_brushes);
               <["_id" := VOid 3]> (model_dump canvases) ] []))
  = Ok ["Art Supplies"; "Sports Equipment"].
Proof. reflexivity. Qed.

(** An item exactly at its threshold is listed without the filter and
    dropped by it. *)
Example at_threshold_not_low :
  fst (get_stock_items (Some "Art Supplies") (Some true) example_db)
  = Ok [model_dump art_brushes].
Proof. reflexivity. Qed.

(** Created items get their [_id] from the store and keep the invariant
    of the data model. *)
Example create_on_example :
  stock_collection
    (snd (create_stock_item whistles (Some "mrodriguez") example_db))
  = (example_stock ++ [ <["_id" := VOid 4]> (model_dump whistles) ])%list.
Proof. reflexivity. Qed.

(** A quantity update to a new value succeeds; the message spells the
    number out. *)
Example update_on_example :
  fst (update_stock_quantity "A1" (StockUpdate.Build 12)
         (Some "mrodriguez") example_db)
  = Ok {["message" := VStr "Stock item A1 quantity updated to 12"]}.
Proof. reflexivity. Qed.

(** ** Where the hypotheses matter

    Outside the data model the handlers answer differently: the examples
    below run them on documents that are no stored items. *)

(** A document without a quantity makes the low-stock comprehension raise
    [KeyError]. *)
Example low_stock_without_quantity :
  fst (get_stock_items None (Some true)
         (Db [ <["_id" := VOid 1]> {["item_id" := VStr "X"]} ] []))
  = Raise (KeyError "quantity").
Proof. reflexivity. Qed.

(** Categories of different types cannot be sorted. *)
Example categories_of_mixed_types :
  fst (get_categories
         (Db [ {["category" := VStr "b"]}; {["category" := VInt 3]} ] []))
  = Raise TypeError.
Proof. reflexivity. Qed.

(** With two documents of one identifier the second delete still finds
    one. *)
Example delete_twice_with_duplicates :
  succeeds
    (fst (delete_stock_item "A1" (Some "mrodriguez")
            (snd (delete_stock_item "A1" (Some "mrodriguez")
                    (Db (example_stock ++ example_stock)%list
                        example_teachers))))).
Proof. eexists. reflexivity. Qed.

(** A blank credential counts as missing even when the credential store
    has a teacher with the blank identifier. *)
Example blank_credential_is_missing :
  fst (create_stock_item art_brushes (Some "") (Db [] [ {["_id" := VStr ""]} ]))
  = Raise (HTTPException 401 "Authentication required for this action").
Proof. reflexivity. Qed.

(** ** Lookups after writes *)

Section LookupsAfterWrites.
Implicit Types (q d : document) (c : collection) (id : string).

Lemma find_one_app q c1 c2 :
  find_one q (c1 ++ c2)
  = match find_one q c1 with
    | Some d => Some d
    | None => find_one q c2
    end.
Proof.
  induction c1 as [|d c1 IH]; [done|].
  rewrite <- app_comm_cons, !find_one_cons. by destruct (matches q d).
Qed.

Lemma matches_item_id_set_quantity id (v : value) d :
  matches {["item_id" := VStr id]} ({["quantity" := v]} ∪ d)
  = matches {["item_id" := VStr id]} d.
Proof.
  apply eq_true_iff_eq. rewrite <- !Is_true_true, !matches_singleton.
  rewrite lookup_union_r; [done|]. by apply lookup_singleton_ne.
Qed.

Lemma matches_item_id_excl id id' d :
  id <> id' ->
  matches {["item_id" := VStr id]} d ->
  matches {["item_id" := VStr id']} d = false.
Proof.
  intros Hne H%matches_singleton. apply Is_true_false.
  intros H'%matches_singleton. congruence.
Qed.

Lemma find_one_delete_other id id' c :
  id <> id' ->
  find_one {["item_id" := VStr id']}
    (snd (delete_one {["item_id" := VStr id]} c))
  = find_one {["item_id" := VStr id']} c.
Proof.
  intros Hne. induction c as [|d c IH]; [done|]. cbn [delete_one].
  destruct (matches {["item_id" := VStr id]} d) eqn:E.
  - cbn [snd]. rewrite find_one_cons.
    rewrite (matches_item_id_excl id id' d Hne); [done | by rewrite E].
  - destruct (delete_one _ c) as [r c']. cbn [snd] in *.
    by rewrite !find_one_cons, IH.
Qed.

Lemma find_one_update_other id id' (v : value) c :
  id <> id' ->
  find_one {["item_id" := VStr id']}
    (snd (update_one {["item_id" := VStr id]} {["quantity" := v]} c))
  = find_one {["item_id" := VStr id']} c.
Proof.
  intros Hne. induction c as [|d c IH]; [done|]. cbn [update_one].
  destruct (matches {["item_id" := VStr id]} d) eqn:E.
  - cbn [snd]. rewrite !find_one_cons, matches_item_id_set_quantity.
    rewrite (matches_item_id_excl id id' d Hne); [done | by rewrite E].
  - destruct (update_one _ _ c) as [r c']. cbn [snd] in *.
    by rewrite !find_one_cons, IH.
Qed.

Lemma find_one_update_same id (v : value) c :
  find_one {["item_id" := VStr id]}
    (snd (update_one {["item_id" := VStr id]} {["quantity" := v]} c))
  = (fun d : document => {["quantity" := v]} ∪ d)
      <$> find_one {["item_id" := VStr id]} c.
Proof.
  induction c as [|d c IH]; [done|]. cbn [update_one].
  destruct (matches {["item_id" := VStr id]} d) eqn:E.
  - cbn [snd]. by rewrite !find_one_cons, matches_item_id_set_quantity, E.
  - destruct (update_one _ _ c) as [r c']. cbn [snd] in *.
    by rewrite !find_one_cons, E, IH.
Qed.

Lemma delete_one_app_last q c d :
  find_one q c = None -> matches q d ->
  snd (delete_one q (c ++ [d])) = c.
Proof.
  intros Hnone Hd. induction c as [|d' c IH]; cbn [app delete_one].
  - by destruct (matches q d).
  - rewrite find_one_cons in Hnone.
    destruct (matches q d'); [done|].
    specialize (IH Hnone). destruct (delete_one q (c ++ [d])) as [r c'].
    cbn [snd] in *. by rewrite IH.
Qed.

Lemma find_nonempty_singleton (k : string) (v : value) c d :
  find_one {[k := v]} c = Some d -> truthy_doc (Some d) = true.
Proof.
  intros [_ H%matches_singleton]%find_one_Some.
  apply bool_decide_eq_true. intros ->. by rewrite lookup_empty in H.
Qed.

Lemma truthy_find_one_eq (k : string) (v : value) c :
  truthy_doc (find_one {[k := v]} c)
  = match find_one {[k := v]} c with Some _ => true | None => false end.
Proof.
  destruct (find_one _ c) as [d|] eqn:E; [|done].
  by eapply find_nonempty_singleton.
Qed.

(** What [get_stock_item] answers, by the lookup of the identifier. *)
Lemma get_stock_item_eq id (st : db) :
  get_stock_item id st
  = (match find_one {["item_id" := VStr id]} (stock_collection st) with
     | Some d => Ok (delete "_id" d)
     | None => Raise (HTTPException 404 "Stock item not found")
     end, st).
Proof.
  unfold get_stock_item. unfold_monad.
  destruct (find_one _ (stock_collection st)) as [d|] eqn:E; [|done].
  by rewrite (find_nonempty_singleton _ _ _ _ E).
Qed.
End LookupsAfterWrites.

(** ** Further properties of the handlers *)

Section Outcomes.
Implicit Types (st : db) (cred : option string) (id : string).

Lemma not_succeeds_raise {A} (e : exn) : ~ succeeds (@Raise A e).
Proof. intros [? [=]]. Qed.

Lemma succeeds_ok {A} (a : A) : succeeds (Ok a).
Proof. by exists a. Qed.

Lemma has_item_find_one id (c : collection) :
  has_item id c <-> is_Some (find_one {["item_id" := VStr id]} c).
Proof.
  unfold has_item. rewrite <- truthy_find_one, truthy_find_one_eq.
  destruct (find_one _ c) as [d|].
  - split; [by eauto | done].
  - split; [done | by intros [? [=]]].
Qed.

Lemma delete_found_count id (c : collection) :
  truthy_doc (find_one {["item_id" := VStr id]} c) = true ->
  deleted_count (fst (delete_one {["item_id" := VStr id]} c)) = 1.
Proof.
  rewrite truthy_find_one_eq, delete_one_count.
  by destruct (find_one _ c).
Qed.
End Outcomes.

(** X1. Getting an item by identifier leaves the database as it was,
    succeeds exactly when an item with that identifier is stored and
    fails with NotFound (404) exactly when none is; a returned item
    carries the identifier that was asked for. *)
Theorem get_item_by_identifier (st : db) (id : string) :
  snd (get_stock_item id st) = st
  /\ (succeeds (fst (get_stock_item id st))
      <-> has_item id (stock_collection st))
  /\ (fails_with (fst (get_stock_item id st)) NotFound
      <-> ~ has_item id (stock_collection st))
  /\ (forall item,
         fst (get_stock_item id st) = Ok item ->
         item !! "item_id" = Some (VStr id)).
Proof.
  rewrite get_stock_item_eq, has_item_find_one. cbn [fst snd].
  destruct (find_one _ (stock_collection st)) as [d|] eqn:E.
  - split; [done|]. split; [split; [by eauto | intros _; by eexists]|].
    split.
    + split; [intros [? [=]] | intros H; destruct H; by eauto].
    + intros item [= <-]. rewrite lookup_delete_ne by done.
      by apply find_one_Some in E as [_ ?%matches_singleton].
  - split; [done|]. split; [split; [intros [? [=]] | intros [? [=]]]|].
    split; [|done].
    split; [intros _ [? [=]] | intros _; by eexists].
Qed.

(** X3. A create succeeds exactly when the credential is valid and no
    stored item has the identifier of the submitted item; it then adds one
    document to the stock collection, and otherwise leaves the database
    as it was. *)
Theorem create_succeeds_iff
    (st : db) (cred : option string) (item : StockItem.t) :
  (succeeds (fst (create_stock_item item cred st))
   <-> valid_credential cred (teachers_collection st)
       /\ ~ has_item (StockItem.item_id item) (stock_collection st))
  /\ (if fst (create_stock_item item cred st) is Ok _
      then length (stock_collection (snd (create_stock_item item cred st)))
           = S (length (stock_collection st))
      else snd (create_stock_item item cred st) = st).
Proof.
  destruct (valid_or_rejected cred (teachers_collection st)) as [Hv | Hr].
  - rewrite (create_valid _ _ _ Hv), has_item_find_one, truthy_find_one_eq.
    destruct (find_one _ (stock_collection st)) as [d|] eqn:E; cbn [fst snd].
    + split; [|done]. split; [intros [? [=]] | intros [_ H]; destruct H; eauto].
    + split.
      * split; [intros _; split; [done | intros [? [=]]] | intros _].
        apply succeeds_ok.
      * cbn [stock_collection]. unfold insert_one.
        rewrite model_dump_no_oid, length_app. cbn. lia.
  - destruct (create_rejected st cred item Hr) as [d1 ->]. cbn [fst snd].
    split; [|done]. apply rejected_iff_not_valid in Hr.
    split; [intros [? [=]] | tauto].
Qed.

(** X4. A delete succeeds exactly when the credential is valid and an
    item with the identifier is stored; it then removes one document from
    the stock collection, and otherwise leaves the database as it was. *)
Theorem delete_succeeds_iff (st : db) (cred : option string) (id : string) :
  (succeeds (fst (delete_stock_item id cred st))
   <-> valid_credential cred (teachers_collection st)
       /\ has_item id (stock_collection st))
  /\ (if fst (delete_stock_item id cred st) is Ok _
      then S (length (stock_collection (snd (delete_stock_item id cred st))))
           = length (stock_collection st)
      else snd (delete_stock_item id cred st) = st).
Proof.
  destruct (valid_or_rejected cred (teachers_collection st)) as [Hv | Hr].
  - rewrite (delete_valid _ _ _ Hv), has_item_find_one.
    destruct (truthy_doc _) eqn:Et; cbn zeta.
    + rewrite (delete_found_count _ _ Et). cbn [fst snd Z.eqb].
      rewrite truthy_find_one_eq in Et.
      split.
      * split; [intros _; split; [done|] | intros _; apply succeeds_ok].
        by destruct (find_one _ (stock_collection st)); [eauto|].
      * cbn [stock_collection]. clear Hv.
        induction (stock_collection st) as [|d c IH]; [done|].
        rewrite find_one_cons in Et. cbn [delete_one].
        destruct (matches _ d); [done|]. specialize (IH Et).
        destruct (delete_one _ c) as [r c']. cbn [snd length] in *. lia.
    + cbn [fst snd]. split; [|done]. rewrite truthy_find_one_eq in Et.
      split; [intros [? [=]] | intros [_ [? H]]].
      rewrite H in Et. done.
  - destruct (delete_rejected st cred id Hr) as [d1 ->]. cbn [fst snd].
    split; [|done]. apply rejected_iff_not_valid in Hr.
    split; [intros [? [=]] | tauto].
Qed.

Section UpdateFacts.
Implicit Types (st : db) (cred : option string) (id : string).

Lemma update_found_count id (q : Z) (c : collection) d :
  find_one {["item_id" := VStr id]} c = Some d ->
  modified_count
    (fst (update_one {["item_id" := VStr id]} {["quantity" := VInt q]} c))
  = if bool_decide (d !! "quantity" = Some (VInt q)) then 0 else 1.
Proof.
  intros E. rewrite update_one_count, E.
  by rewrite (bool_decide_ext _ _ (set_field_unchanged "quantity" (VInt q) d)).
Qed.

Lemma delete_oid_set_quantity (v : value) (d : document) :
  delete "_id" ({["quantity" := v]} ∪ d)
  = <["quantity" := v]> (delete "_id" d).
Proof.
  rewrite <- insert_union_singleton_l. by rewrite delete_insert_ne.
Qed.

Lemma created_doc_item_id (oid : value) (item : StockItem.t) :
  (<["_id" := oid]> (model_dump item)) !! "item_id"
  = Some (VStr (StockItem.item_id item)).
Proof.
  rewrite lookup_insert_ne by done. unfold model_dump.
  apply lookup_insert_eq.
Qed.

Lemma created_doc_matches (oid : value) (item : StockItem.t) id :
  matches {["item_id" := VStr id]} (<["_id" := oid]> (model_dump item))
  = bool_decide (StockItem.item_id item = id).
Proof.
  pose proof (created_doc_item_id oid item) as H.
  revert H. generalize (<["_id" := oid]> (model_dump item)). intros d H.
  apply eq_true_iff_eq. rewrite <- !Is_true_true.
  rewrite (matches_singleton "item_id" (VStr id) d), bool_decide_spec, H.
  split; congruence.
Qed.

Lemma update_one_other_field (k : string) (q0 : document) (v : value)
    (c : collection) :
  k <> "quantity" ->
  omap (fun d : document => d !! k)
    (snd (update_one q0 {["quantity" := v]} c))
  = omap (fun d : document => d !! k) c.
Proof.
  intros Hk. induction c as [|d c IH]; [done|]. cbn [update_one].
  destruct (matches q0 d).
  - cbn. rewrite lookup_union_r; [done|]. by apply lookup_singleton_ne.
  - destruct (update_one q0 _ c) as [r c']. cbn in *. by rewrite IH.
Qed.
End UpdateFacts.

(** X5. A quantity update succeeds exactly when the credential is valid
    and the stored item with the identifier (the first found) has a
    quantity other than the new one. *)
Theorem update_succeeds_iff
    (st : db) (cred : option string) (id : string) (upd : StockUpdate.t) :
  succeeds (fst (update_stock_quantity id upd cred st))
  <-> valid_credential cred (teachers_collection st)
      /\ exists d,
          find_one {["item_id" := VStr id]} (stock_collection st) = Some d
          /\ d !! "quantity" <> Some (VInt (StockUpdate.quantity upd)).
Proof.
  destruct (valid_or_rejected cred (teachers_collection st)) as [Hv | Hr].
  - rewrite (update_valid _ _ _ _ Hv), truthy_find_one_eq.
    destruct (find_one _ (stock_collection st)) as [d|] eqn:E;
      cbn zeta; cbn [fst].
    + rewrite (update_found_count _ _ _ _ E).
      case_bool_decide as Hq; cbn [Z.eqb].
      * split; [intros [? [=]] | intros [_ (d' & [= <-] & Hne)]; done].
      * split; [intros _; eauto | intros _; apply succeeds_ok].
    + split; [intros [? [=]] | intros [_ (d' & [=] & _)]].
  - destruct (update_rejected st cred id upd Hr) as [d1 ->]. cbn [fst].
    apply rejected_iff_not_valid in Hr.
    split; [intros [? [=]] | tauto].
Qed.

(** X6. After a quantity update with a valid credential, getting the
    item returns what it returned before with the quantity field set to
    the submitted value: the other fields are as they were. *)
Theorem update_then_get
    (st : db) (cred : option string) (id : string) (upd : StockUpdate.t)
    (r : document) :
  valid_credential cred (teachers_collection st) ->
  fst (get_stock_item id st) = Ok r ->
  fst (get_stock_item id (snd (update_stock_quantity id upd cred st)))
  = Ok (<["quantity" := VInt (StockUpdate.quantity upd)]> r).
Proof.
  intros Hv. rewrite (update_valid _ _ _ _ Hv), !get_stock_item_eq.
  rewrite truthy_find_one_eq. cbn [fst].
  destruct (find_one _ (stock_collection st)) as [d|] eqn:E; [|done].
  intros [= <-]. cbn zeta. cbn [snd stock_collection].
  rewrite find_one_update_same, E. cbn.
  by rewrite delete_oid_set_quantity.
Qed.

(** X7. A write addressed to one identifier does not change what a get
    of another identifier returns, whether the write succeeds or fails:
    this holds for create, quantity update and delete. *)
Theorem writes_leave_other_items
    (st : db) (cred : option string) (item : StockItem.t) (id : string)
    (upd : StockUpdate.t) (other : string) :
  (StockItem.item_id item <> other ->
   fst (get_stock_item other (snd (create_stock_item item cred st)))
   = fst (get_stock_item other st))
  /\ (id <> other ->
      fst (get_stock_item other (snd (update_stock_quantity id upd cred st)))
      = fst (get_stock_item other st)
      /\ fst (get_stock_item other (snd (delete_stock_item id cred st)))
         = fst (get_stock_item other st)).
Proof.
  rewrite !get_stock_item_eq. cbn [fst].
  destruct (valid_or_rejected cred (teachers_collection st)) as [Hv | Hr].
  - rewrite (create_valid _ _ _ Hv), (update_valid _ _ _ _ Hv),
      (delete_valid _ _ _ Hv).
    split.
    + intros Hne. destruct (truthy_doc _); [done|].
      cbn [snd stock_collection]. unfold insert_one.
      rewrite model_dump_no_oid, find_one_app.
      destruct (find_one _ (stock_collection st)); [done|].
      rewrite find_one_cons.
      rewrite created_doc_matches, bool_decide_eq_false_2; done.
    + intros Hne. split.
      * destruct (truthy_doc _); [|done]. cbn zeta.
        cbn [snd stock_collection]. by rewrite find_one_update_other.
      * destruct (truthy_doc _); [|done]. cbn zeta.
        cbn [snd stock_collection]. by rewrite find_one_delete_other.
  - destruct (create_rejected st cred item Hr) as [d1 ->].
    destruct (update_rejected st cred id upd Hr) as [d2 ->].
    destruct (delete_rejected st cred id Hr) as [d3 ->]. done.
Qed.

(** X8. With a valid credential, creating an item under an identifier
    that is not in the store and then deleting that identifier succeeds
    and gives back the database as it was before the create. *)
Theorem create_then_delete_restores
    (st : db) (cred : option string) (item : StockItem.t) :
  valid_credential cred (teachers_collection st) ->
  ~ has_item (StockItem.item_id item) (stock_collection st) ->
  succeeds
    (fst (delete_stock_item (StockItem.item_id item) cred
            (snd (create_stock_item item cred st))))
  /\ snd (delete_stock_item (StockItem.item_id item) cred
            (snd (create_stock_item item cred st)))
     = st.
Proof.
  intros Hv Hfresh. rewrite (create_valid _ _ _ Hv).
  rewrite has_item_find_one in Hfresh.
  rewrite truthy_find_one_eq.
  destruct (find_one _ (stock_collection st)) as [d|] eqn:E;
    [destruct Hfresh; eauto|].
  cbn [snd]. rewrite delete_valid by done. cbn [stock_collection].
  unfold insert_one. rewrite model_dump_no_oid.
  set (d' := <["_id" := _]> (model_dump item)).
  assert (Hm : matches {["item_id" := VStr (StockItem.item_id item)]} d').
  { unfold d'. rewrite created_doc_matches. by apply bool_decide_pack. }
  assert (Ht : truthy_doc
                 (find_one {["item_id" := VStr (StockItem.item_id item)]}
                    (stock_collection st ++ [d'])) = true).
  { rewrite truthy_find_one_eq, find_one_app, E, find_one_cons.
    by destruct (matches _ d'). }
  rewrite Ht. cbn zeta. rewrite (delete_found_count _ _ Ht).
  cbn [fst snd Z.eqb teachers_collection].
  split; [apply succeeds_ok|].
  rewrite (delete_one_app_last _ _ _ E Hm). by destruct st.
Qed.

(** X9. A quantity update is not repeatable: with a valid credential and
    a stored identifier, sending the same update a second time fails with
    InternalError, whatever the first one answered, because the stored
    quantity then is the submitted one. *)
Theorem repeated_update_internal_error
    (st : db) (cred : option string) (id : string) (upd : StockUpdate.t) :
  valid_credential cred (teachers_collection st) ->
  has_item id (stock_collection st) ->
  fails_with
    (fst (update_stock_quantity id upd cred
            (snd (update_stock_quantity id upd cred st))))
    InternalError.
Proof.
  intros Hv [d E]%has_item_find_one.
  rewrite (update_valid _ _ _ _ Hv), truthy_find_one_eq, E. cbn zeta.
  cbn [snd]. rewrite update_valid by done. cbn [stock_collection].
  assert (E' : find_one {["item_id" := VStr id]}
                 (snd (update_one {["item_id" := VStr id]}
                         {["quantity" := VInt (StockUpdate.quantity upd)]}
                         (stock_collection st)))
               = Some ({["quantity" := VInt (StockUpdate.quantity upd)]} ∪ d))
    by (by rewrite find_one_update_same, E).
  rewrite truthy_find_one_eq, E'. cbn zeta.
  rewrite (update_found_count _ _ _ _ E').
  rewrite bool_decide_eq_true_2.
  - cbn [fst Z.eqb]. by eexists.
  - rewrite <- insert_union_singleton_l. apply lookup_insert_eq.
Qed.

(** X10. With a valid credential and unique identifiers, a get of an
    identifier that was just the target of a delete fails with NotFound,
    whether the delete found the item or not. *)
Theorem delete_then_get_not_found
    (st : db) (cred : option string) (id : string) :
  valid_credential cred (teachers_collection st) ->
  unique_ids (stock_collection st) ->
  fails_with (fst (get_stock_item id (snd (delete_stock_item id cred st))))
    NotFound.
Proof.
  intros Hv Hu. rewrite (delete_valid _ _ _ Hv), get_stock_item_eq.
  cbn [fst]. destruct (truthy_doc _) eqn:Et; cbn zeta.
  - cbn [snd stock_collection].
    assert (E : truthy_doc
                  (find_one {["item_id" := VStr id]}
                     (snd (delete_one {["item_id" := VStr id]}
                             (stock_collection st)))) = false).
    { apply truthy_find_one_false. by apply delete_one_gone. }
    rewrite truthy_find_one_eq in E.
    destruct (find_one _ (snd _)); [done | by eexists].
  - cbn [snd]. rewrite truthy_find_one_eq in Et.
    destruct (find_one _ (stock_collection st)); [done | by eexists].
Qed.

Section ListingFacts.
Implicit Types (st : db) (c : collection) (d : document).

Lemma find_empty_query c : find ∅ c = c.
Proof.
  unfold find. induction c as [|d c IH]; [done|].
  rewrite filter_cons, matches_empty. cbn. by rewrite IH.
Qed.

Lemma find_singleton_query (k : string) (v : value) c :
  find {[k := v]} c = filter (fun d : document => d !! k = Some v) c.
Proof.
  unfold find. apply list_filter_iff. intros d. apply matches_singleton.
Qed.

Lemma category_query_nonempty (s : string) :
  s <> "" -> category_query (Some s) = {["category" := VStr s]}.
Proof.
  intros Hs%truthy_str_Some. unfold category_query. rewrite Hs.
  apply insert_empty.
Qed.

Lemma created_doc_category (oid : value) (item : StockItem.t) :
  (<["_id" := oid]> (model_dump item)) !! "category"
  = Some (VStr (StockItem.category item)).
Proof.
  rewrite lookup_insert_ne by done. unfold model_dump.
  rewrite lookup_insert_ne by done. rewrite lookup_insert_ne by done.
  apply lookup_insert_eq.
Qed.


Lemma get_categories_eq st :
  get_categories st
  = (obind (sorted (distinct "category" (stock_collection st)))
       validate_str_list, st).
Proof.
  unfold get_categories. unfold_monad.
  by destruct (sorted _).
Qed.

Lemma get_categories_members st :
  Forall str_category (stock_collection st) ->
  exists l : list string,
    get_categories st = (Ok l, st)
    /\ forall s, s ∈ l <->
                 exists d, d ∈ stock_collection st
                           /\ d !! "category" = Some (VStr s).
Proof.
  intros Hstr.
  assert (Hvs : Forall (fun v => exists s, v = VStr s)
                  (distinct "category" (stock_collection st))).
  { apply Forall_forall. intros v (d & Hd & Hv)%elem_of_distinct.
    rewrite Forall_forall in Hstr. by apply (Hstr d Hd). }
  destruct (strings_of_values _ Hvs) as [ls Hls].
  destruct (sorted_strings ls) as (l & Hsort & Hperm & _).
  exists l. split.
  - unfold get_categories. unfold_monad.
    by rewrite Hls, Hsort, validate_strings.
  - intros s. rewrite Hperm, <- elem_of_distinct, Hls. split.
    + intros Hs. by apply list_elem_of_fmap_2.
    + by intros (s' & [= ->] & Hs)%list_elem_of_fmap.
Qed.
End ListingFacts.

(** X11. Without the low-stock filter the listing never fails and drops
    nothing: for a non-empty category it returns, in the order of the
    store, every stored document whose category is that value, and for an
    absent or empty category every stored document, each without its
    [_id]; the database is left as it was. *)
Theorem listing_returns_every_match (st : db) (low_stock : option bool) :
  low_stock <> Some true ->
  (forall s : string,
      s <> "" ->
      get_stock_items (Some s) low_stock st
      = (Ok ((fun d : document => delete "_id" d)
               <$> filter (fun d : document => d !! "category" = Some (VStr s))
                     (stock_collection st)), st))
  /\ get_stock_items None low_stock st
     = (Ok ((fun d : document => delete "_id" d) <$> stock_collection st), st)
  /\ get_stock_items (Some "") low_stock st
     = (Ok ((fun d : document => delete "_id" d) <$> stock_collection st), st).
Proof.
  intros Hlow.
  assert (Hf : truthy_bool low_stock = false)
    by (by destruct low_stock as [[]|]).
  rewrite !get_stock_items_eq, Hf. cbn zeta.
  split; [|split].
  - intros s Hs. rewrite get_stock_items_eq, Hf. cbn zeta.
    by rewrite (category_query_nonempty s Hs), find_singleton_query.
  - cbn [category_query]. by rewrite find_empty_query.
  - cbn [category_query truthy_str]. by rewrite find_empty_query.
Qed.


(** X13. A quantity update never changes the list of categories: the
    categories operation answers the same before and after it, whatever
    the update answered. *)
Theorem update_keeps_categories
    (st : db) (cred : option string) (id : string) (upd : StockUpdate.t) :
  fst (get_categories (snd (update_stock_quantity id upd cred st)))
  = fst (get_categories st).
Proof.
  destruct (valid_or_rejected cred (teachers_collection st)) as [Hv | Hr].
  - rewrite (update_valid _ _ _ _ Hv).
    destruct (truthy_doc _); [|done]. cbn zeta. cbn [snd].
    rewrite !get_categories_eq. cbn [fst stock_collection].
    unfold distinct. by rewrite update_one_other_field.
  - by destruct (update_rejected st cred id upd Hr) as [d1 ->].
Qed.

(** X14. Serving any sequence of mutating requests keeps the data model
    (every stored document is a stored item and identifiers are unique)
    and never touches the teachers collection. *)
Theorem serve_keeps_data_model (rs : list request) (st : db) :
  wf_stock (stock_collection st) ->
  wf_stock (stock_collection (serve rs st))
  /\ teachers_collection (serve rs st) = teachers_collection st.
Proof.
  revert st. induction rs as [|r rs IH]; intros st Hwf; [done|].
  cbn [serve].
  assert (Hstep : wf_stock (stock_collection (snd (route r st)))
                  /\ teachers_collection (snd (route r st))
                     = teachers_collection st).
  { destruct r as [item cred | id upd cred | id cred]; cbn [route].
    - split; [by apply (handlers_keep_wf st cred item "" (StockUpdate.Build 0))|].
      destruct (valid_or_rejected cred (teachers_collection st)) as [Hv | Hr].
      + rewrite (create_valid _ _ _ Hv). by destruct (truthy_doc _).
      + by destruct (create_rejected st cred item Hr) as [? ->].
    - split; [by apply (handlers_keep_wf st cred art_brushes id upd)|].
      destruct (valid_or_rejected cred (teachers_collection st)) as [Hv | Hr].
      + rewrite (update_valid _ _ _ _ Hv). by destruct (truthy_doc _).
      + by destruct (update_rejected st cred id upd Hr) as [? ->].
    - split; [by apply (handlers_keep_wf st cred art_brushes id
                          (StockUpdate.Build 0))|].
      destruct (valid_or_rejected cred (teachers_collection st)) as [Hv | Hr].
      + rewrite (delete_valid _ _ _ Hv). by destruct (truthy_doc _).
      + by destruct (delete_rejected st cred id Hr) as [? ->]. }
  destruct Hstep as [Hwf' Ht]. destruct (IH _ Hwf') as [H1 H2].
  split; [done | congruence].
Qed.

(** X15. After a successful create in a store whose categories are
    strings, the categories operation returns the categories from before
    together with the category of the new item. *)
Theorem categories_after_create
    (st : db) (cred : option string) (item : StockItem.t) :
  valid_credential cred (teachers_collection st) ->
  ~ has_item (StockItem.item_id item) (stock_collection st) ->
  Forall str_category (stock_collection st) ->
  exists l l' : list string,
    fst (get_categories st) = Ok l
    /\ fst (get_categories (snd (create_stock_item item cred st))) = Ok l'
    /\ forall s, s ∈ l' <-> s = StockItem.category item \/ s ∈ l.
Proof.
  intros Hv Hfresh Hstr.
  destruct (get_categories_members st Hstr) as (l & Hl & Hmem).
  rewrite (create_valid _ _ _ Hv).
  assert (E : truthy_doc
                (find_one {["item_id" := VStr (StockItem.item_id item)]}
                   (stock_collection st)) = false).
  { apply truthy_find_one_false. intros d Hd Hid. apply Hfresh. by exists d. }
  rewrite E. cbn [snd].
  set (st' := Db _ _).
  assert (Hstock : stock_collection st'
                   = (stock_collection st
                      ++ [<["_id" := VOid (N.succ (max_oid (stock_collection st)))]>
                            (model_dump item)])%list).
  { unfold st', insert_one. cbn. by rewrite model_dump_no_oid. }
  assert (Hstr' : Forall str_category (stock_collection st')).
  { rewrite Hstock. apply Forall_app. split; [done|].
    constructor; [|constructor].
    apply stored_item_str_category. by eexists _, _. }
  destruct (get_categories_members st' Hstr') as (l' & Hl' & Hmem').
  exists l, l'. rewrite Hl, Hl'. split; [done|]. split; [done|].
  intros s. rewrite Hmem', Hmem, Hstock. split.
  - intros (d & [Hd | ->%list_elem_of_singleton]%elem_of_app & Hc);
      [right; eauto|].
    left. rewrite created_doc_category in Hc. congruence.
  - intros [-> | (d & Hd & Hc)].
    + eexists. split; [apply elem_of_app; right; apply list_elem_of_here|].
      apply created_doc_category.
    + exists d. split; [apply elem_of_app; by left | done].
Qed.

Section Agreement.
Implicit Types (st : db) (c : collection) (d : document).

Lemma unique_ids_find_one (id : string) c d :
  unique_ids c -> d ∈ c -> d !! "item_id" = Some (VStr id) ->
  find_one {["item_id" := VStr id]} c = Some d.
Proof.
  induction c as [|d0 c IH]; [by intros _ ?%not_elem_of_nil|].
  intros [Hd0 Hu]%unique_ids_cons Hd Hid. rewrite find_one_cons.
  apply elem_of_cons in Hd as [-> | Hd].
  - apply matches_singleton, Is_true_true in Hid. by rewrite Hid.
  - destruct (matches _ d0) eqn:E; [|by apply IH].
    assert (Hm : d0 !! "item_id" = Some (VStr id))
      by (apply matches_singleton; by rewrite E).
    destruct (Hd0 _ Hm d Hd Hid).
Qed.
End Agreement.

(** X16. With unique identifiers the listing and the get agree: every
    item of a list response that carries an identifier is what a get of
    that identifier returns. *)
Theorem listing_agrees_with_get
    (st : db) (category : option string) (low_stock : option bool)
    (items : list document) (item : document) (id : string) :
  unique_ids (stock_collection st) ->
  fst (get_stock_items category low_stock st) = Ok items ->
  item ∈ items ->
  item !! "item_id" = Some (VStr id) ->
  fst (get_stock_item id st) = Ok item.
Proof.
  intros Hu Hres Hitem Hid.
  destruct (get_stock_items_elem _ _ _ _ _ Hres Hitem) as (d & Hd & _ & ->).
  rewrite lookup_delete_ne in Hid by done.
  by rewrite get_stock_item_eq, (unique_ids_find_one id _ d).
Qed.

(** ** The further properties on the running example *)

Ltac example_unique := apply (bool_decide_unpack _); vm_compute; exact I.

Ltac example_missing :=
  let H := fresh in intros H; apply truthy_find_one in H; exact H.

Lemma get_item_by_identifier_witness :
  fst (get_stock_item "A3" example_db) = Ok (model_dump canvases)
  /\ model_dump canvases !! "item_id" = Some (VStr "A3").
Proof.
  assert (H : fst (get_stock_item "A3" example_db) = Ok (model_dump canvases))
    by reflexivity.
  split; [exact H|].
  exact (proj2 (proj2 (proj2 (get_item_by_identifier example_db "A3")))
           (model_dump canvases) H).
Defined.

Lemma create_succeeds_iff_witness :
  (valid_credential (Some "mrodriguez") (teachers_collection example_db)
   /\ ~ has_item (StockItem.item_id whistles) (stock_collection example_db))
  /\ succeeds (fst (create_stock_item whistles (Some "mrodriguez") example_db)).
Proof.
  assert (H : valid_credential (Some "mrodriguez")
                (teachers_collection example_db)
              /\ ~ has_item (StockItem.item_id whistles)
                   (stock_collection example_db))
    by (split; [example_teacher | example_missing]).
  split; [exact H|].
  exact (proj2 (proj1 (create_succeeds_iff example_db (Some "mrodriguez")
                         whistles)) H).
Defined.

Lemma delete_succeeds_iff_witness :
  (valid_credential (Some "mrodriguez") (teachers_collection example_db)
   /\ has_item "A3" (stock_collection example_db))
  /\ succeeds (fst (delete_stock_item "A3" (Some "mrodriguez") example_db)).
Proof.
  assert (H : valid_credential (Some "mrodriguez")
                (teachers_collection example_db)
              /\ has_item "A3" (stock_collection example_db)).
  { split; [example_teacher|]. eexists.
    split; [apply list_elem_of_further, list_elem_of_further,
              list_elem_of_here | reflexivity]. }
  split; [exact H|].
  exact (proj2 (proj1 (delete_succeeds_iff example_db (Some "mrodriguez")
                         "A3")) H).
Defined.

Lemma update_succeeds_iff_witness :
  (valid_credential (Some "mrodriguez") (teachers_collection example_db)
   /\ exists d,
       find_one {["item_id" := VStr "A2"]} (stock_collection example_db)
       = Some d
       /\ d !! "quantity" <> Some (VInt 9))
  /\ succeeds
       (fst (update_stock_quantity "A2" (StockUpdate.Build 9)
               (Some "mrodriguez") example_db)).
Proof.
  assert (H : valid_credential (Some "mrodriguez")
                (teachers_collection example_db)
              /\ exists d,
                  find_one {["item_id" := VStr "A2"]}
                    (stock_collection example_db) = Some d
                  /\ d !! "quantity" <> Some (VInt 9)).
  { split; [example_teacher|]. eexists. split; [reflexivity | discriminate]. }
  split; [exact H|].
  exact (proj2 (update_succeeds_iff example_db (Some "mrodriguez") "A2"
                  (StockUpdate.Build 9)) H).
Defined.

Lemma update_then_get_witness :
  valid_credential (Some "mrodriguez") (teachers_collection example_db)
  /\ fst (get_stock_item "A2" example_db) = Ok (model_dump footballs)
  /\ fst (get_stock_item "A2"
            (snd (update_stock_quantity "A2" (StockUpdate.Build 9)
                    (Some "mrodriguez") example_db)))
     = Ok (<["quantity" := VInt 9]> (model_dump footballs)).
Proof.
  assert (Hv : valid_credential (Some "mrodriguez")
                 (teachers_collection example_db)) by example_teacher.
  assert (Hg : fst (get_stock_item "A2" example_db)
               = Ok (model_dump footballs)) by reflexivity.
  split; [exact Hv|]. split; [exact Hg|].
  exact (update_then_get example_db (Some "mrodriguez") "A2"
           (StockUpdate.Build 9) (model_dump footballs) Hv Hg).
Defined.

Lemma writes_leave_other_items_witness :
  "A1" <> "A2"
  /\ fst (get_stock_item "A2"
            (snd (update_stock_quantity "A1" (StockUpdate.Build 30)
                    (Some "mrodriguez") example_db)))
     = fst (get_stock_item "A2" example_db)
  /\ fst (get_stock_item "A2"
            (snd (delete_stock_item "A1" (Some "mrodriguez") example_db)))
     = fst (get_stock_item "A2" example_db).
Proof.
  assert (Hne : "A1" <> "A2") by discriminate.
  split; [exact Hne|].
  exact (proj2 (writes_leave_other_items example_db (Some "mrodriguez")
                  whistles "A1" (StockUpdate.Build 30) "A2") Hne).
Defined.

Lemma create_then_delete_restores_witness :
  valid_credential (Some "mrodriguez") (teachers_collection example_db)
  /\ ~ has_item (StockItem.item_id whistles) (stock_collection example_db)
  /\ succeeds
       (fst (delete_stock_item (StockItem.item_id whistles)
               (Some "mrodriguez")
               (snd (create_stock_item whistles (Some "mrodriguez")
                       example_db))))
  /\ snd (delete_stock_item (StockItem.item_id whistles) (Some "mrodriguez")
            (snd (create_stock_item whistles (Some "mrodriguez") example_db)))
     = example_db.
Proof.
  assert (Hv : valid_credential (Some "mrodriguez")
                 (teachers_collection example_db)) by example_teacher.
  assert (Hf : ~ has_item (StockItem.item_id whistles)
                 (stock_collection example_db)) by example_missing.
  split; [exact Hv|]. split; [exact Hf|].
  exact (create_then_delete_restores example_db (Some "mrodriguez") whistles
           Hv Hf).
Defined.

Lemma repeated_update_internal_error_witness :
  valid_credential (Some "mrodriguez") (teachers_collection example_db)
  /\ has_item "A1" (stock_collection example_db)
  /\ fails_with
       (fst (update_stock_quantity "A1" (StockUpdate.Build 30)
               (Some "mrodriguez")
               (snd (update_stock_quantity "A1" (StockUpdate.Build 30)
                       (Some "mrodriguez") example_db))))
       InternalError.
Proof.
  assert (Hv : valid_credential (Some "mrodriguez")
                 (teachers_collection example_db)) by example_teacher.
  assert (Hi : has_item "A1" (stock_collection example_db))
    by (eexists; split; [apply list_elem_of_here | reflexivity]).
  split; [exact Hv|]. split; [exact Hi|].
  exact (repeated_update_internal_error example_db (Some "mrodriguez") "A1"
           (StockUpdate.Build 30) Hv Hi).
Defined.

Lemma delete_then_get_not_found_witness :
  valid_credential (Some "mrodriguez") (teachers_collection example_db)
  /\ unique_ids (stock_collection example_db)
  /\ fails_with
       (fst (get_stock_item "A1"
               (snd (delete_stock_item "A1" (Some "mrodriguez") example_db))))
       NotFound.
Proof.
  assert (Hv : valid_credential (Some "mrodriguez")
                 (teachers_collection example_db)) by example_teacher.
  assert (Hu : unique_ids (stock_collection example_db)) by example_unique.
  split; [exact Hv|]. split; [exact Hu|].
  exact (delete_then_get_not_found example_db (Some "mrodriguez") "A1" Hv Hu).
Defined.

Lemma listing_returns_every_match_witness :
  Some false <> Some true
  /\ "Sports Equipment" <> ""
  /\ get_stock_items (Some "Sports Equipment") (Some false) example_db
     = (Ok ((fun d : document => delete "_id" d)
              <$> filter (fun d : document =>
                            d !! "category" = Some (VStr "Sports Equipment"))
                    (stock_collection example_db)), example_db).
Proof.
  assert (Hl : Some false <> Some true) by discriminate.
  assert (Hs : "Sports Equipment" <> "") by discriminate.
  split; [exact Hl|]. split; [exact Hs|].
  exact (proj1 (listing_returns_every_match example_db (Some false) Hl)
           "Sports Equipment" Hs).
Defined.


Lemma serve_keeps_data_model_witness :
  wf_stock (stock_collection (Db [] example_teachers))
  /\ wf_stock
       (stock_collection
          (serve [ PostStock art_brushes (Some "mrodriguez");
                   PostStock art_brushes (Some "mrodriguez");
                   PutStock "A1" (StockUpdate.Build 7) (Some "mrodriguez");
                   PostStock footballs None;
                   DeleteStock "A1" (Some "mrodriguez") ]
             (Db [] example_teachers)))
  /\ teachers_collection
       (serve [ PostStock art_brushes (Some "mrodriguez");
                PostStock art_brushes (Some "mrodriguez");
                PutStock "A1" (StockUpdate.Build 7) (Some "mrodriguez");
                PostStock footballs None;
                DeleteStock "A1" (Some "mrodriguez") ]
          (Db [] example_teachers))
     = teachers_collection (Db [] example_teachers).
Proof.
  assert (H : wf_stock (stock_collection (Db [] example_teachers)))
    by (split; constructor).
  split; [exact H|].
  exact (serve_keeps_data_model _ (Db [] example_teachers) H).
Defined.

Lemma categories_after_create_witness :
  valid_credential (Some "mrodriguez") (teachers_collection example_db)
  /\ ~ has_item (StockItem.item_id whistles) (stock_collection example_db)
  /\ Forall str_category (stock_collection example_db)
  /\ exists l l' : list string,
      fst (get_categories example_db) = Ok l
      /\ fst (get_categories
                (snd (create_stock_item whistles (Some "mrodriguez")
                        example_db))) = Ok l'
      /\ forall s, s ∈ l' <-> s = StockItem.category whistles \/ s ∈ l.
Proof.
  assert (Hv : valid_credential (Some "mrodriguez")
                 (teachers_collection example_db)) by example_teacher.
  assert (Hf : ~ has_item (StockItem.item_id whistles)
                 (stock_collection example_db)) by example_missing.
  assert (Hs : Forall str_category (stock_collection example_db)).
  { eapply Forall_impl; [|exact stored_item_str_category]. example_stored. }
  split; [exact Hv|]. split; [exact Hf|]. split; [exact Hs|].
  exact (categories_after_create example_db (Some "mrodriguez") whistles
           Hv Hf Hs).
Defined.

Lemma listing_agrees_with_get_witness :
  unique_ids (stock_collection example_db)
  /\ fst (get_stock_items (Some "Art Supplies") (Some true) example_db)
     = Ok [model_dump art_brushes]
  /\ model_dump art_brushes ∈ [model_dump art_brushes]
  /\ model_dump art_brushes !! "item_id" = Some (VStr "A1")
  /\ fst (get_stock_item "A1" example_db) = Ok (model_dump art_brushes).
Proof.
  assert (Hu : unique_ids (stock_collection example_db)) by example_unique.
  assert (Hr : fst (get_stock_items (Some "Art Supplies") (Some true)
                      example_db) = Ok [model_dump art_brushes])
    by reflexivity.
  assert (Hin : model_dump art_brushes ∈ [model_dump art_brushes])
    by apply list_elem_of_here.
  assert (Hid : model_dump art_brushes !! "item_id" = Some (VStr "A1"))
    by reflexivity.
  split; [exact Hu|]. split; [exact Hr|]. split; [exact Hin|].
  split; [exact Hid|].
  exact (listing_agrees_with_get example_db (Some "Art Supplies") (Some true)
           _ (model_dump art_brushes) "A1" Hu Hr Hin Hid).
Defined.

(** ** The low-stock listing against the store *)

Section LowStockListing.
Implicit Types (st : db) (c : collection) (d : document).

Lemma find_in_category (category : option string) c :
  find (category_query category) c = filter (in_category category) c.
Proof.
  unfold find. apply list_filter_iff. intros d.
  unfold category_query, in_category. destruct category as [s|].
  - destruct (decide (s = "")) as [-> | Hs].
    + cbn. by rewrite matches_empty.
    + pose proof Hs as Ht. apply truthy_str_Some in Ht. rewrite Ht.
      rewrite insert_empty. apply matches_singleton.
  - by rewrite matches_empty.
Qed.

Lemma is_low_stock_delete_oid d :
  is_low_stock (delete "_id" d) <-> is_low_stock d.
Proof. unfold is_low_stock. by rewrite !lookup_delete_ne. Qed.

Lemma filter_low_stock_responses (l : list document) :
  filter is_low_stock ((fun d : document => delete "_id" d) <$> l)
  = (fun d : document => delete "_id" d) <$> filter is_low_stock l.
Proof.
  induction l as [|d l IH]; [done|].
  rewrite fmap_cons, !filter_cons, IH.
  destruct (decide (is_low_stock d)) as [H | H].
  - rewrite decide_True by (by apply is_low_stock_delete_oid). done.
  - rewrite decide_False; [done|]. by rewrite is_low_stock_delete_oid.
Qed.

Lemma comprehension_succeeds {A} (p : A -> outcome bool) (l : list A) :
  succeeds (comprehension p l) <-> Forall (fun x => succeeds (p x)) l.
Proof.
  induction l as [|x l IH]; cbn [comprehension].
  - split; [constructor | intros _; apply succeeds_ok].
  - rewrite Forall_cons, <- IH. destruct (p x) as [b|e]; cbn [obind].
    + destruct (comprehension p l) as [r|e]; cbn [obind].
      * split; [intros _; split; apply succeeds_ok | intros _; apply succeeds_ok].
      * split; [intros [? [=]] | intros [_ [? [=]]]].
    + split; [intros [? [=]] | intros [[? [=]] _]].
Qed.

Lemma comprehension_raises {A} (p : A -> outcome bool) (l : list A) e :
  comprehension p l = Raise e -> exists x, x ∈ l /\ p x = Raise e.
Proof.
  induction l as [|x l IH]; cbn [comprehension]; [done|].
  destruct (p x) as [b|e'] eqn:E; cbn [obind].
  - destruct (comprehension p l) as [r|e']; cbn [obind]; [done|].
    intros [= ->]. destruct (IH eq_refl) as (y & Hy & Hp).
    exists y. split; [by right | done].
  - intros [= ->]. exists x. split; [left | done].
Qed.

Lemma below_minimum_delete_oid d :
  below_minimum (delete "_id" d) = below_minimum d.
Proof.
  unfold below_minimum, getitem. by rewrite !lookup_delete_ne.
Qed.

Lemma below_minimum_raises d e :
  below_minimum d = Raise e ->
  e = KeyError "quantity" \/ e = KeyError "min_quantity" \/ e = TypeError.
Proof.
  unfold below_minimum, getitem.
  destruct (d !! "quantity") as [[]|], (d !! "min_quantity") as [[]|];
    cbn; intros [= <-]; auto.
Qed.

Lemma below_minimum_missing d :
  d !! "quantity" = None \/ d !! "min_quantity" = None ->
  ~ succeeds (below_minimum d).
Proof.
  unfold below_minimum, getitem. intros [-> | Hm]; [intros [? [=]]|].
  destruct (d !! "quantity"); rewrite ?Hm; intros [? [=]].
Qed.
End LowStockListing.

(** C3. When the quantities and thresholds of the stored items are
    integers, listing with low_stock set returns, in the order of the
    store and each without its [_id], exactly the stored documents that
    the category argument selects and whose quantity is strictly less
    than their min_quantity; it is the category-filtered listing with the
    items that are not low on stock left out.  A stored item whose
    quantity equals its min_quantity is never in the result. *)
Theorem low_stock_exact (st : db) (category : option string) :
  Forall int_levels (stock_collection st) ->
  let low :=
    (fun d : document => delete "_id" d)
      <$> filter (fun d : document => in_category category d /\ is_low_stock d)
            (stock_collection st) in
  get_stock_items category None st
  = (Ok ((fun d : document => delete "_id" d)
           <$> filter (in_category category) (stock_collection st)), st)
  /\ get_stock_items category (Some true) st = (Ok low, st)
  /\ (forall item,
         item ∈ low <->
         exists d, d ∈ stock_collection st
                   /\ in_category category d
                   /\ item = delete "_id" d
                   /\ exists q m, d !! "quantity" = Some (VInt q)
                                  /\ d !! "min_quantity" = Some (VInt m)
                                  /\ q < m)
  /\ (forall d q,
         d ∈ stock_collection st ->
         d !! "quantity" = Some (VInt q) ->
         d !! "min_quantity" = Some (VInt q) ->
         delete "_id" d ∉ low).
Proof.
  intros Hint low.
  assert (Hmem : forall item,
             item ∈ low <->
             exists d, d ∈ stock_collection st
                       /\ in_category category d
                       /\ item = delete "_id" d
                       /\ exists q m, d !! "quantity" = Some (VInt q)
                                      /\ d !! "min_quantity" = Some (VInt m)
                                      /\ q < m).
  { intros item. unfold low. rewrite list_elem_of_fmap. split.
    - intros (d & -> & [[Hc Hl] Hd]%list_elem_of_filter).
      apply is_low_stock_spec in Hl. eauto 10.
    - intros (d & Hd & Hc & -> & Hl). exists d. split; [done|].
      apply list_elem_of_filter. rewrite is_low_stock_spec. eauto. }
  rewrite !get_stock_items_eq, find_in_category. cbn [truthy_bool]. cbn zeta.
  split; [done|]. split; [|split; [exact Hmem|]].
  - rewrite comprehension_low_stock.
    + rewrite filter_low_stock_responses, list_filter_filter.
      unfold low. do 3 f_equal. apply list_filter_iff. tauto.
    + apply Forall_forall.
      intros item (d & -> & [_ Hd]%list_elem_of_filter)%list_elem_of_fmap.
      rewrite Forall_forall in Hint. apply int_levels_delete_oid. auto.
  - intros d q Hd Hq Hm (d' & _ & _ & Heq & q' & m' & Hq' & Hm' & Hlt)%Hmem.
    assert (H1 : delete "_id" d !! "quantity" = delete "_id" d' !! "quantity")
      by (by rewrite Heq).
    assert (H2 : delete "_id" d !! "min_quantity"
                 = delete "_id" d' !! "min_quantity") by (by rewrite Heq).
    rewrite !lookup_delete_ne in H1, H2 by done.
    rewrite Hq, Hq' in H1. rewrite Hm, Hm' in H2. simplify_eq. lia.
Qed.

Lemma low_stock_exact_witness :
  Forall int_levels (stock_collection example_db)
  /\ get_stock_items (Some "Art Supplies") (Some true) example_db
     = (Ok ((fun d : document => delete "_id" d)
              <$> filter (fun d : document =>
                            in_category (Some "Art Supplies") d
                            /\ is_low_stock d)
                    (stock_collection example_db)), example_db)
  /\ delete "_id" (<["_id" := VOid 3]> (model_dump canvases))
     ∉ (fun d : document => delete "_id" d)
         <$> filter (fun d : document =>
                       in_category (Some "Art Supplies") d /\ is_low_stock d)
               (stock_collection example_db).
Proof.
  assert (Hi : Forall int_levels (stock_collection example_db)).
  { eapply Forall_impl; [|exact stored_item_int_levels]. example_stored. }
  split; [exact Hi|].
  destruct (low_stock_exact example_db (Some "Art Supplies") Hi)
    as (_ & Hlow & _ & Heq).
  split; [exact Hlow|].
  apply (Heq (<["_id" := VOid 3]> (model_dump canvases)) 4).
  - apply list_elem_of_further, list_elem_of_further, list_elem_of_here.
  - reflexivity.
  - reflexivity.
Defined.

(** X17. When a stored document that the category argument selects has
    no quantity or no min_quantity, the low-stock listing does not return
    a list: a [KeyError] for the missing key or a [TypeError] of the
    comparison escapes the handler, not an [HTTPException]; the database
    is left as it was, and the listing without the low-stock filter still
    succeeds. *)
Theorem low_stock_listing_missing_level
    (st : db) (category : option string) (d : document) :
  d ∈ stock_collection st ->
  in_category category d ->
  d !! "quantity" = None \/ d !! "min_quantity" = None ->
  (exists e,
      fst (get_stock_items category (Some true) st) = Raise e
      /\ (e = KeyError "quantity" \/ e = KeyError "min_quantity"
          \/ e = TypeError))
  /\ snd (get_stock_items category (Some true) st) = st
  /\ succeeds (fst (get_stock_items category None st)).
Proof.
  intros Hd Hc Hmiss. rewrite !get_stock_items_eq, find_in_category.
  cbn [truthy_bool fst snd]. cbn zeta.
  split; [|split; [done | apply succeeds_ok]].
  destruct (comprehension below_minimum _) as [r|e] eqn:E.
  - exfalso.
    assert (Hs : succeeds
                   (comprehension below_minimum
                      ((fun d : document => delete "_id" d)
                         <$> filter (in_category category)
                               (stock_collection st))))
      by (rewrite E; apply succeeds_ok).
    rewrite comprehension_succeeds, Forall_fmap, Forall_forall in Hs.
    specialize (Hs d). cbn in Hs. rewrite below_minimum_delete_oid in Hs.
    apply (below_minimum_missing d Hmiss), Hs.
    by apply list_elem_of_filter.
  - exists e. split; [done|].
    apply comprehension_raises in E as (x & _ & Hx).
    by apply below_minimum_raises in Hx.
Qed.

Lemma low_stock_listing_missing_level_witness :
  <["_id" := VOid 2]> {["item_id" := VStr "B7"]}
  ∈ [ <["_id" := VOid 1]> (model_dump art_brushes);
      <["_id" := VOid 2]> {["item_id" := VStr "B7"]} ]
  /\ in_category None (<["_id" := VOid 2]> {["item_id" := VStr "B7"]})
  /\ (exists e,
         fst (get_stock_items None (Some true)
                (Db [ <["_id" := VOid 1]> (model_dump art_brushes);
                      <["_id" := VOid 2]> {["item_id" := VStr "B7"]} ] []))
         = Raise e
         /\ (e = KeyError "quantity" \/ e = KeyError "min_quantity"
             \/ e = TypeError)).
Proof.
  assert (Hd : <["_id" := VOid 2]> {["item_id" := VStr "B7"]}
               ∈ [ <["_id" := VOid 1]> (model_dump art_brushes);
                   <["_id" := VOid 2]> {["item_id" := VStr "B7"]} ])
    by apply list_elem_of_further, list_elem_of_here.
  assert (Hc : in_category None (<["_id" := VOid 2]> {["item_id" := VStr "B7"]}))
    by exact I.
  split; [exact Hd|]. split; [exact Hc|].
  exact (proj1 (low_stock_listing_missing_level
                  (Db [ <["_id" := VOid 1]> (model_dump art_brushes);
                        <["_id" := VOid 2]> {["item_id" := VStr "B7"]} ] [])
                  None _ Hd Hc (or_introl eq_refl))).
Defined.
